(** * portfolio.js: the contact form of the portfolio page

    A shallow embedding of [src/portfolio.js].  The script binds three
    elements of the document ([form], [modal], [closeBtn]) and registers
    three listeners: a [submit] listener on the form, a [click] listener on
    the close button and a [click] listener on the window.  The submit
    listener starts one [fetch] whose promise is chained with [.then] and
    [.catch].

    The listeners are written in a small monad that threads the page, can
    throw, and records the actions a listener performs, in order.  The
    document is taken to hold the three elements the script binds, the form
    with the controls that contribute to its entry list. *)

From Stdlib Require Import List String ZArith Bool Lia PeanoNat.
Import ListNotations.
Local Open Scope string_scope.
Local Open Scope list_scope.
Set Warnings "-register-all".

(** ** The document *)

Module Dom.

(** Elements are compared by identity ([===]); a handle stands for one. *)
Definition node := nat.

(** What a control of the form holds: text, or a selected file. *)
Inductive value :=
| VString (s : string)
| VFile (filename : string) (content : string).

(** A control of the form: its name, what it holds now, and what
    [form.reset()] puts back. *)
Record field := mkField {
  name : string;
  current : value;
  defaultValue : value
}.

(** The entry list that [new FormData(form)] captures. *)
Definition entries (fs : list field) : list (string * value) :=
  map (fun f => (name f, current f)) fs.

(** [form.reset()] on one control, and on the whole form. *)
Definition reset_field (f : field) : field :=
  {| name := name f; current := defaultValue f; defaultValue := defaultValue f |}.

Definition reset_fields (fs : list field) : list field := map reset_field fs.


(** An event as the listeners see it.  The browser fires submit and click
    events cancelable, so [preventDefault] takes effect on them. *)
Record event := mkEvent {
  target : node;
  defaultPrevented : bool
}.

(** An element with its children, for clicks inside the overlay. *)
Inductive tree := Elem (n : node) (children : list tree).

Definition root (t : tree) : node := match t with Elem n _ => n end.

Fixpoint nodes (t : tree) : list node :=
  match t with
  | Elem n cs => n :: flat_map nodes cs
  end.

(** The elements strictly inside [t]. *)
Definition descendants (t : tree) : list node :=
  match t with
  | Elem _ cs => flat_map nodes cs
  end.

End Dom.

(** ** Requests and responses *)

Module Http.

Inductive body :=
| FormDataBody (es : list (string * Dom.value)).

(** The encoding the browser picks for a body. *)
Definition content_type (b : body) : string :=
  match b with
  | FormDataBody _ => "multipart/form-data"
  end.

Record request := mkRequest {
  url : string;
  method : string;
  payload : body;
  headers : list (string * string)
}.

Record response := mkResponse {
  status : Z;
  text : string
}.

(** [response.ok]: the status is in the range 200-299. *)
Definition ok (r : response) : bool :=
  ((200 <=? status r) && (status r <=? 299))%Z.

End Http.

(** ** The page and the listener monad *)

Module Run.

Record page := mkPage {
  form_action : string;            (* form.action *)
  form_fields : list Dom.field;    (* the controls of the form *)
  modal_display : string;          (* modal.style.display *)
  in_flight : nat                  (* fetch promises not settled yet *)
}.

(** What a listener does, in the order it does it. *)
Inductive effect :=
| EPreventDefault
| ENewFormData
| EFetch (r : Http.request)
| EFormReset
| ESetDisplay (v : string)
| EAlert (msg : string).

Inductive completion (A : Type) :=
| Normal (a : A)
| Throw (err : string).
Arguments Normal {A} a.
Arguments Throw {A} err.

Definition M (A : Type) : Type := page -> completion A * page * list effect.

Definition ret {A} (a : A) : M A := fun p => (Normal a, p, []).

Definition bind {A B} (m : M A) (f : A -> M B) : M B :=
  fun p =>
    match m p with
    | (Normal a, p1, t1) =>
        match f a p1 with
        | (r, p2, t2) => (r, p2, t1 ++ t2)
        end
    | (Throw e, p1, t1) => (Throw e, p1, t1)
    end.

(** How a promise settles. *)
Inductive settled (A : Type) :=
| Fulfilled (a : A)
| Rejected (reason : string).
Arguments Fulfilled {A} a.
Arguments Rejected {A} reason.

(** [p.then(f)]: [f] runs when [p] is fulfilled; a rejection passes
    through; an exception thrown by [f] rejects the new promise. *)
Definition then_ {A B} (s : settled A) (f : A -> M B) : M (settled B) :=
  match s with
  | Fulfilled a =>
      fun p =>
        match f a p with
        | (Normal b, p1, t) => (Normal (Fulfilled b), p1, t)
        | (Throw e, p1, t) => (Normal (Rejected e), p1, t)
        end
  | Rejected e => ret (Rejected e)
  end.

(** [p.catch(g)]: [g] runs when [p] is rejected; a fulfilment passes
    through. *)
Definition catch_ {A} (s : settled A) (g : string -> M A) : M (settled A) :=
  match s with
  | Fulfilled a => ret (Fulfilled a)
  | Rejected e =>
      fun p =>
        match g e p with
        | (Normal a, p1, t) => (Normal (Fulfilled a), p1, t)
        | (Throw e', p1, t) => (Normal (Rejected e'), p1, t)
        end
  end.

(** *** The browser's operations the script calls *)

(** [e.preventDefault()] *)
Definition preventDefault (e : Dom.event) : M Dom.event :=
  fun p =>
    (Normal {| Dom.target := Dom.target e; Dom.defaultPrevented := true |},
     p, [EPreventDefault]).

(** [new FormData(form)] *)
Definition newFormData : M (list (string * Dom.value)) :=
  fun p => (Normal (Dom.entries (form_fields p)), p, [ENewFormData]).

(** [form.action] *)
Definition get_form_action : M string :=
  fun p => (Normal (form_action p), p, []).

(** [fetch(url, init)]: the request leaves and a pending promise exists. *)
Definition fetch (r : Http.request) : M unit :=
  fun p =>
    (Normal tt,
     {| form_action := form_action p;
        form_fields := form_fields p;
        modal_display := modal_display p;
        in_flight := S (in_flight p) |},
     [EFetch r]).

(** [form.reset()] *)
Definition form_reset : M unit :=
  fun p =>
    (Normal tt,
     {| form_action := form_action p;
        form_fields := Dom.reset_fields (form_fields p);
        modal_display := modal_display p;
        in_flight := in_flight p |},
     [EFormReset]).

(** [modal.style.display = v] *)
Definition set_modal_display (v : string) : M unit :=
  fun p =>
    (Normal tt,
     {| form_action := form_action p;
        form_fields := form_fields p;
        modal_display := v;
        in_flight := in_flight p |},
     [ESetDisplay v]).

(** [alert(msg)] *)
Definition alert (msg : string) : M unit :=
  fun p => (Normal tt, p, [EAlert msg]).

End Run.

Import Run.

Declare Scope js_scope.
Delimit Scope js_scope with js.
Notation "x <- m ;; k" := (bind m (fun x => k))
  (at level 61, m at next level, right associativity) : js_scope.
Notation "m ;;; k" := (bind m (fun _ => k))
  (at level 61, right associativity) : js_scope.
Local Open Scope js_scope.

(** ** The script *)

Definition msg_http_failure : string := "送信に失敗しました。".
Definition msg_network_failure : string := "通信エラーが発生しました。".

(** The request the submit listener builds. *)
Definition submit_request (action : string) (formData : list (string * Dom.value))
  : Http.request :=
  {| Http.url := action;
     Http.method := "POST";
     Http.payload := Http.FormDataBody formData;
     Http.headers := [("Accept", "application/json")] |}.

(** [form.addEventListener("submit", function (e) { ... })], up to the
    point where [fetch] has returned its promise. *)
Definition submit_listener (e : Dom.event) : M Dom.event :=
  e' <- preventDefault e ;;
  formData <- newFormData ;;
  action <- get_form_action ;;
  fetch (submit_request action formData) ;;;
  ret e'.

(** [.then((response) => { ... })] *)
Definition then_handler (response : Http.response) : M unit :=
  if Http.ok response then
    form_reset ;;;
    set_modal_display "block"
  else
    alert msg_http_failure.

(** [.catch(() => { ... })] *)
Definition catch_handler (_ : string) : M unit :=
  alert msg_network_failure.

(** The chain [fetch(...).then(...).catch(...)] once the fetch settles. *)
Definition settle_chain (o : settled Http.response) : M (settled unit) :=
  s <- then_ o then_handler ;;
  catch_ s catch_handler.

(** [closeBtn.addEventListener("click", () => { ... })] *)
Definition closeBtn_click_listener (_ : Dom.event) : M unit :=
  set_modal_display "none".

Section Script.

(** [const modal = document.getElementById("modal")] *)
Variable modal : Dom.node.

(** [window.addEventListener("click", (e) => { ... })] *)
Definition window_click_listener (e : Dom.event) : M unit :=
  if Nat.eqb (Dom.target e) modal then
    set_modal_display "none"
  else
    ret tt.

(** *** The event loop

    What the browser hands to the script: a submit event on the form, the
    settlement of a pending [fetch], a click that reaches the close
    button's listener, a click that reaches the window's listener. *)
Inductive input :=
| Submit (e : Dom.event)
| Settle (o : settled Http.response)
| CloseClick (e : Dom.event)
| WindowClick (e : Dom.event).

Definition outcome_of_run {A} (r : completion A * page * list effect)
  : page * list effect :=
  match r with
  | (_, p, t) => (p, t)
  end.

(** One pending promise leaves the pending set as it settles. *)
Definition take_pending (p : page) (n : nat) : page :=
  {| form_action := form_action p;
     form_fields := form_fields p;
     modal_display := modal_display p;
     in_flight := n |}.

Definition step (p : page) (i : input) : page * list effect :=
  match i with
  | Submit e => outcome_of_run (submit_listener e p)
  | Settle o =>
      match in_flight p with
      | O => (p, [])
      | S n => outcome_of_run (settle_chain o (take_pending p n))
      end
  | CloseClick e => outcome_of_run (closeBtn_click_listener e p)
  | WindowClick e => outcome_of_run (window_click_listener e p)
  end.

Fixpoint run (p : page) (ins : list input) : page * list effect :=
  match ins with
  | [] => (p, [])
  | i :: rest =>
      match step p i with
      | (p1, t1) =>
          match run p1 rest with
          | (p2, t2) => (p2, t1 ++ t2)
          end
      end
  end.

End Script.

(** Modelled from the spec: the overlay's display when the script loads.
    The markup and the style sheet that decide it are not part of the
    script; the spec gives the initial state as hidden. *)
Definition initial_display : string := "none".

Definition initial_page (action : string) (fields : list Dom.field) : page :=
  {| form_action := action;
     form_fields := fields;
     modal_display := initial_display;
     in_flight := 0 |}.

(** ** Reading a trace *)

Definition alerts (t : list effect) : list string :=
  flat_map (fun x => match x with EAlert m => [m] | _ => [] end) t.

Definition fetches (t : list effect) : list Http.request :=
  flat_map (fun x => match x with EFetch r => [r] | _ => [] end) t.

(** The spec's SubmissionOutcome. *)
Inductive outcome := Success | HttpFailure | NetworkFailure.

(** The branches of the chain that ran, read off the trace: the success
    branch is the one that resets the form, the two failure branches are
    told apart by the text they show. *)
Definition outcomes (t : list effect) : list outcome :=
  flat_map
    (fun x =>
       match x with
       | EFormReset => [Success]
       | EAlert m =>
           if String.eqb m msg_http_failure then [HttpFailure]
           else if String.eqb m msg_network_failure then [NetworkFailure]
           else []
       | _ => []
       end) t.

(** The outcome a settlement stands for. *)
Definition outcome_of (o : settled Http.response) : outcome :=
  match o with
  | Fulfilled r => if Http.ok r then Success else HttpFailure
  | Rejected _ => NetworkFailure
  end.

Definition count_submits (ins : list input) : nat :=
  List.length (filter (fun i => match i with Submit _ => true | _ => false end) ins).

(** ** The overlay's state machine, as the spec words it *)

Inductive overlay := Hidden | Visible.

Inductive occurrence :=
| SuccessfulSubmission
| CloseButtonActivation
| BackdropClick
| Other.

Definition spec_overlay_step (v : overlay) (a : occurrence) : overlay :=
  match a with
  | SuccessfulSubmission => Visible
  | CloseButtonActivation => Hidden
  | BackdropClick => Hidden
  | Other => v
  end.

(** The overlay state a display value stands for; values the script never
    writes are left to the style sheet. *)
Definition overlay_of (d : string) : option overlay :=
  if String.eqb d "none" then Some Hidden
  else if String.eqb d "block" then Some Visible
  else None.

(** What an input of the event loop is, in the spec's terms. *)
Definition classify (modal : Dom.node) (p : page) (i : input) : occurrence :=
  match i with
  | Submit _ => Other
  | Settle o =>
      match in_flight p, o with
      | S _, Fulfilled r => if Http.ok r then SuccessfulSubmission else Other
      | _, _ => Other
      end
  | CloseClick _ => CloseButtonActivation
  | WindowClick e => if Nat.eqb (Dom.target e) modal then BackdropClick else Other
  end.

(** The script writes only "none" and "block". *)
Definition display_written (p : page) : Prop :=
  modal_display p = "none" \/ modal_display p = "block".

(** ** Observing a listener *)

(** What is looked at after a listener has run: the controls of the
    form, the overlay's display, and the alerts shown. *)
Definition observe {A} (r : completion A * page * list effect)
  : list Dom.field * string * list string :=
  match r with
  | (_, p, t) => (form_fields p, modal_display p, alerts t)
  end.

(** Two settlements are the same outcome: both rejections, or responses
    with the same status. *)
Definition same_outcome (o1 o2 : settled Http.response) : Prop :=
  match o1, o2 with
  | Fulfilled r1, Fulfilled r2 => Http.status r1 = Http.status r2
  | Rejected _, Rejected _ => True
  | _, _ => False
  end.

(** ** A sample page, for the examples below *)

Definition sample_fields : list Dom.field :=
  [ {| Dom.name := "name"; Dom.current := Dom.VString "Yuki";
       Dom.defaultValue := Dom.VString "" |};
    {| Dom.name := "email"; Dom.current := Dom.VString "yuki@example.com";
       Dom.defaultValue := Dom.VString "" |};
    {| Dom.name := "topic"; Dom.current := Dom.VString "work";
       Dom.defaultValue := Dom.VString "hello" |};
    {| Dom.name := "attachment"; Dom.current := Dom.VFile "cv.pdf" "%PDF";
       Dom.defaultValue := Dom.VString "" |} ].

Definition sample_page : page :=
  initial_page "https://example.com/f/contact" sample_fields.

(** The page once one submission is on its way. *)
Definition sample_pending (modal : Dom.node) : page :=
  fst (step modal sample_page (Submit {| Dom.target := 1; Dom.defaultPrevented := false |})).

Definition response_200 : Http.response := {| Http.status := 200; Http.text := "{}" |}.
Definition response_500 : Http.response := {| Http.status := 500; Http.text := "oops" |}.

(** The overlay with its inner content and the close button in it. *)
Definition sample_overlay : Dom.tree :=
  Dom.Elem 7 [Dom.Elem 8 [Dom.Elem 9 []; Dom.Elem 10 []]].

(** ** The way of an event through the document *)

Module Doc.

(** The elements an event with target [x] passes on its way up: [x]
    first, the root last. *)
Fixpoint path_to (t : Dom.tree) (x : Dom.node) : option (list Dom.node) :=
  match t with
  | Dom.Elem n cs =>
      if Nat.eqb n x then Some [n]
      else
        match (fix first_in (cs : list Dom.tree) : option (list Dom.node) :=
                 match cs with
                 | [] => None
                 | c :: rest =>
                     match path_to c x with
                     | Some l => Some l
                     | None => first_in rest
                     end
                 end) cs with
        | Some l => Some (l ++ [n])
        | None => None
        end
  end.

End Doc.

(** ** Loading the script *)

Module Load.

(** The three callbacks the script passes to [addEventListener]. *)
Inductive listener := SubmitListener | CloseListener | WindowClickListener.

Inductive event_target :=
| OnElement (n : Dom.node)
| OnWindow.

Record registration := mkRegistration {
  on : event_target;
  event_type : string;
  callback : listener
}.

(** The script's three [const]s, as the lookups of its first three lines
    found them; [None] is [null]. *)
Record bindings := mkBindings {
  form : option Dom.node;
  modal : option Dom.node;
  closeBtn : option Dom.node
}.

(** The names under which an element lists controls as properties of its
    own: for a form element the names and ids of its listed controls, for
    any other element none.  A control listed under a name hides the
    element's own method of that name. *)
Definition listing : Type := Dom.node -> list string.

Definition hides (ls : listing) (n : Dom.node) (s : string) : bool :=
  existsb (String.eqb s) (ls n).

(** A statement of the script's top level: it adds to the listeners
    registered so far, or throws. *)
Definition stmt : Type := list registration -> completion unit * list registration.

(** Statements in sequence: an exception ends the script. *)
Definition seq (s1 s2 : stmt) : stmt :=
  fun regs =>
    match s1 regs with
    | (Normal _, regs1) => s2 regs1
    | (Throw e, regs1) => (Throw e, regs1)
    end.

(** [target.addEventListener(type, cb)]: the call throws on [null], and on
    an element that lists a control under the name addEventListener, which
    is then what [target.addEventListener] reads. *)
Definition addEventListener (ls : listing) (target : option event_target)
  (type : string) (cb : listener) : stmt :=
  fun regs =>
    match target with
    | None => (Throw "TypeError", regs)
    | Some t =>
        if match t with
           | OnElement n => hides ls n "addEventListener"
           | OnWindow => false
           end
        then (Throw "TypeError", regs)
        else (Normal tt, regs ++ [mkRegistration t type cb])
    end.

Record loaded := mkLoaded {
  binds : bindings;
  result : completion unit;
  registered : list registration
}.

(** The script's top level after its three lookups: the three calls of
    [addEventListener], in the order of the source. *)
Definition load_script (ls : listing) (b : bindings) : loaded :=
  let r :=
    seq (addEventListener ls (option_map OnElement (form b)) "submit" SubmitListener)
      (seq (addEventListener ls (option_map OnElement (closeBtn b)) "click" CloseListener)
         (addEventListener ls (Some OnWindow) "click" WindowClickListener)) [] in
  {| binds := b; result := fst r; registered := snd r |}.

End Load.

(** ** The listeners over the bindings

    The callbacks as they run when [modal] may be [null]: reading
    [modal.style] then throws. *)

(** [modal.style.display = v] *)
Definition modal_style_display_set (modal : option Dom.node) (v : string) : M unit :=
  match modal with
  | Some _ => set_modal_display v
  | None => fun p => (Throw "TypeError", p, [])
  end.

(** [.then((response) => { ... })] *)
Definition then_handler_at (modal : option Dom.node) (response : Http.response)
  : M unit :=
  if Http.ok response then
    form_reset ;;;
    modal_style_display_set modal "block"
  else
    alert msg_http_failure.

(** The chain [fetch(...).then(...).catch(...)] once the fetch settles. *)
Definition settle_chain_at (modal : option Dom.node) (o : settled Http.response)
  : M (settled unit) :=
  s <- then_ o (then_handler_at modal) ;;
  catch_ s catch_handler.

(** [closeBtn.addEventListener("click", () => { ... })] *)
Definition closeBtn_click_listener_at (modal : option Dom.node) (_ : Dom.event)
  : M unit :=
  modal_style_display_set modal "none".

(** [e.target === modal]; an element is never [null]. *)
Definition target_is (modal : option Dom.node) (e : Dom.event) : bool :=
  match modal with
  | Some m => Nat.eqb (Dom.target e) m
  | None => false
  end.

(** [window.addEventListener("click", (e) => { ... })] *)
Definition window_click_listener_at (modal : option Dom.node) (e : Dom.event)
  : M unit :=
  if target_is modal e then
    modal_style_display_set modal "none"
  else
    ret tt.

(** ** The chain on a form that may hide its [reset]

    [listed] holds the names under which the form lists its controls (their
    names and ids).  A control listed as reset is what [form.reset] reads,
    and calling it throws; otherwise [form.reset] is the form's method. *)

(** [form.reset()] *)
Definition form_reset_in (listed : list string) : M unit :=
  if existsb (String.eqb "reset") listed then
    fun p => (Throw "TypeError", p, [])
  else
    form_reset.

(** [.then((response) => { ... })] *)
Definition then_handler_in (listed : list string) (modal : option Dom.node)
  (response : Http.response) : M unit :=
  if Http.ok response then
    form_reset_in listed ;;;
    modal_style_display_set modal "block"
  else
    alert msg_http_failure.

(** The chain [fetch(...).then(...).catch(...)] once the fetch settles. *)
Definition settle_chain_in (listed : list string) (modal : option Dom.node)
  (o : settled Http.response) : M (settled unit) :=
  s <- then_ o (then_handler_in listed modal) ;;
  catch_ s catch_handler.

(** ** The script's listeners for one event *)

Definition event_target_eqb (a b : Load.event_target) : bool :=
  match a, b with
  | Load.OnElement n, Load.OnElement m => Nat.eqb n m
  | Load.OnWindow, Load.OnWindow => true
  | _, _ => false
  end.

(** The callbacks registered on [t] for events of type [type], in the order
    they were registered. *)
Definition listeners_on (regs : list Load.registration) (type : string)
  (t : Load.event_target) : list Load.listener :=
  map Load.callback
    (filter (fun r => event_target_eqb (Load.on r) t
                      && String.eqb (Load.event_type r) type) regs).

(** Where a bubbling event goes: from its target up through the element's
    ancestors, then to the window. *)
Definition propagation (tree : Dom.tree) (x : Dom.node) : list Load.event_target :=
  match Doc.path_to tree x with
  | Some l => map Load.OnElement l ++ [Load.OnWindow]
  | None => [Load.OnElement x]
  end.

Definition listener_body (b : Load.bindings) (l : Load.listener) (e : Dom.event)
  : M unit :=
  match l with
  | Load.SubmitListener => submit_listener e ;;; ret tt
  | Load.CloseListener => closeBtn_click_listener_at (Load.modal b) e
  | Load.WindowClickListener => window_click_listener_at (Load.modal b) e
  end.

(** What the script's listeners have done for an event: the page they
    leave, the actions they performed, and the exceptions they threw, which
    nothing catches. *)
Record handled := mkHandled {
  page_after : page;
  performed : list effect;
  uncaught : list string
}.

(** One callback runs; what it throws is reported and the next callback
    runs all the same. *)
Definition invoke (b : Load.bindings) (e : Dom.event)
  (st : handled) (l : Load.listener) : handled :=
  match listener_body b l e (page_after st) with
  | (Normal _, p, t) =>
      {| page_after := p; performed := performed st ++ t; uncaught := uncaught st |}
  | (Throw err, p, t) =>
      {| page_after := p; performed := performed st ++ t;
         uncaught := uncaught st ++ [err] |}
  end.

(** The script's listeners for [e], a bubbling event of type [type], run in
    the order the browser calls them.  Only the script's own callbacks are
    here: what the browser does for the event besides (a submit button that
    submits its form once the click is through, a link that is followed) is
    no part of it. *)
Definition run_listeners (ld : Load.loaded) (tree : Dom.tree) (type : string)
  (e : Dom.event) (p : page) : handled :=
  fold_left (invoke (Load.binds ld) e)
    (flat_map (listeners_on (Load.registered ld) type)
       (propagation tree (Dom.target e)))
    {| page_after := p; performed := []; uncaught := [] |}.

(** The page after [modal.style.display = "none"]. *)
Definition hidden (p : page) : page :=
  {| form_action := form_action p;
     form_fields := form_fields p;
     modal_display := "none";
     in_flight := in_flight p |}.

(** ** A sample document *)

(** The form with a button in it, and the overlay. *)
Definition sample_tree : Dom.tree :=
  Dom.Elem 0 [Dom.Elem 1 [Dom.Elem 2 []]; sample_overlay].

Definition sample_bindings : Load.bindings :=
  {| Load.form := Some 1; Load.modal := Some 7; Load.closeBtn := Some 10 |}.

Definition sample_bindings_no_close : Load.bindings :=
  {| Load.form := Some 1; Load.modal := Some 7; Load.closeBtn := None |}.

Definition sample_bindings_no_modal : Load.bindings :=
  {| Load.form := Some 1; Load.modal := None; Load.closeBtn := Some 10 |}.

(** The form lists its four controls by name. *)
Definition sample_listing : Load.listing :=
  fun n => match n with
           | 1 => ["name"; "email"; "topic"; "attachment"]
           | _ => []
           end.

(** The same form with a reset button named reset. *)
Definition sample_listed_with_reset : list string :=
  ["name"; "email"; "topic"; "attachment"; "reset"].

(** ** Basic facts *)

Lemma ok_spec (r : Http.response) :
  Http.ok r = true <-> (200 <= Http.status r <= 299)%Z.
Proof.
  unfold Http.ok. rewrite andb_true_iff, !Z.leb_le. tauto.
Qed.

Lemma ok_false_spec (r : Http.response) :
  Http.ok r = false <-> ~ (200 <= Http.status r <= 299)%Z.
Proof.
  rewrite <- ok_spec. destruct (Http.ok r); split; congruence.
Qed.



(** The [.then] callback never throws, so [.catch] only ever sees the
    rejection of the fetch itself. *)
Lemma then_handler_normal (r : Http.response) (p : page) :
  exists p' t, then_handler r p = (Normal tt, p', t).
Proof.
  unfold then_handler. destruct (Http.ok r); cbv; eauto.
Qed.

Lemma settle_chain_ok (r : Http.response) (p : page) :
  Http.ok r = true ->
  settle_chain (Fulfilled r) p =
    (Normal (Fulfilled tt),
     {| form_action := form_action p;
        form_fields := Dom.reset_fields (form_fields p);
        modal_display := "block";
        in_flight := in_flight p |},
     [EFormReset; ESetDisplay "block"]).
Proof.
  intros Hok. unfold settle_chain, bind, then_, then_handler.
  rewrite Hok. reflexivity.
Qed.

Lemma settle_chain_not_ok (r : Http.response) (p : page) :
  Http.ok r = false ->
  settle_chain (Fulfilled r) p =
    (Normal (Fulfilled tt), p, [EAlert msg_http_failure]).
Proof.
  intros Hok. unfold settle_chain, bind, then_, then_handler.
  rewrite Hok. reflexivity.
Qed.

Lemma settle_chain_rejected (reason : string) (p : page) :
  settle_chain (Rejected reason) p =
    (Normal (Fulfilled tt), p, [EAlert msg_network_failure]).
Proof. reflexivity. Qed.

Lemma submit_listener_eq (e : Dom.event) (p : page) :
  submit_listener e p =
    (Normal {| Dom.target := Dom.target e; Dom.defaultPrevented := true |},
     {| form_action := form_action p;
        form_fields := form_fields p;
        modal_display := modal_display p;
        in_flight := S (in_flight p) |},
     [EPreventDefault; ENewFormData;
      EFetch (submit_request (form_action p) (Dom.entries (form_fields p)))]).
Proof. reflexivity. Qed.

Lemma run_cons (modal : Dom.node) (p : page) (i : input) (ins : list input) :
  run modal p (i :: ins) =
    (fst (run modal (fst (step modal p i)) ins),
     snd (step modal p i) ++ snd (run modal (fst (step modal p i)) ins)).
Proof.
  simpl. destruct (step modal p i) as [p1 t1].
  simpl. destruct (run modal p1 ins) as [p2 t2]. reflexivity.
Qed.

(** A submission followed at once by the settlement of its fetch. *)
Lemma submit_then_settle (modal : Dom.node) (q : page) (e : Dom.event)
  (o : settled Http.response) :
  run modal q [Submit e; Settle o] =
    (fst (outcome_of_run (settle_chain o q)),
     [EPreventDefault; ENewFormData;
      EFetch (submit_request (form_action q) (Dom.entries (form_fields q)))]
       ++ snd (outcome_of_run (settle_chain o q))).
Proof.
  rewrite run_cons. destruct q as [a fs d n].
  simpl. destruct (settle_chain o _) as [[c p1] t1].
  simpl. rewrite app_nil_r. reflexivity.
Qed.

Example sample_success (modal : Dom.node) :
  step modal (sample_pending modal) (Settle (Fulfilled response_200)) =
    ({| form_action := "https://example.com/f/contact";
        form_fields :=
          [ Dom.mkField "name" (Dom.VString "") (Dom.VString "");
            Dom.mkField "email" (Dom.VString "") (Dom.VString "");
            Dom.mkField "topic" (Dom.VString "hello") (Dom.VString "hello");
            Dom.mkField "attachment" (Dom.VString "") (Dom.VString "") ];
        modal_display := "block";
        in_flight := 0 |},
     [EFormReset; ESetDisplay "block"]).
Proof. reflexivity. Qed.

Example sample_http_failure (modal : Dom.node) :
  step modal (sample_pending modal) (Settle (Fulfilled response_500)) =
    (sample_page, [EAlert "送信に失敗しました。"]).
Proof. reflexivity. Qed.

Example sample_network_failure (modal : Dom.node) :
  step modal (sample_pending modal) (Settle (Rejected "TypeError: Failed to fetch")) =
    (sample_page, [EAlert "通信エラーが発生しました。"]).
Proof. reflexivity. Qed.

(** ** The submission outcomes *)

Lemma existsb_eqb_in (s : string) (l : list string) :
  existsb (String.eqb s) l = true <-> In s l.
Proof.
  rewrite existsb_exists. split.
  - intros [x [Hx E]]. apply String.eqb_eq in E. subst x. exact Hx.
  - intros H. exists s. split; [exact H|apply String.eqb_refl].
Qed.

Lemma existsb_eqb_not_in (s : string) (l : list string) :
  ~ In s l -> existsb (String.eqb s) l = false.
Proof.
  intros H. destruct (existsb (String.eqb s) l) eqn:E; [|reflexivity].
  exfalso. apply H, existsb_eqb_in, E.
Qed.


(** On a form that lists a control as reset, an ok response gets the
    [.catch] callback and nothing else. *)
Lemma settle_chain_in_hidden (listed : list string) (modal : option Dom.node)
  (r : Http.response) (p : page) :
  In "reset" listed ->
  Http.ok r = true ->
  settle_chain_in listed modal (Fulfilled r) p =
    (Normal (Fulfilled tt), p, [EAlert msg_network_failure]).
Proof.
  intros H Hok. apply existsb_eqb_in in H.
  unfold settle_chain_in, bind, then_, then_handler_in, form_reset_in.
  rewrite Hok, H. reflexivity.
Qed.




(** C2: when the fetch of a submission is pending and resolves with a
    response whose status is outside 200-299, the chain shows one alert with
    the text "送信に失敗しました。" and touches neither the controls of the
    form nor the overlay's display.  So a submit event whose fetch resolves
    this way leaves the page as it found it. *)
Theorem http_failure_alerts_and_preserves
  (modal : Dom.node) (p q : page) (n : nat) (e : Dom.event) (r : Http.response) :
  in_flight p = S n ->
  ~ (200 <= Http.status r <= 299)%Z ->
  let p' := fst (step modal p (Settle (Fulfilled r))) in
  snd (step modal p (Settle (Fulfilled r))) = [EAlert "送信に失敗しました。"] /\
  form_fields p' = form_fields p /\
  modal_display p' = modal_display p /\
  form_action p' = form_action p /\
  fst (run modal q [Submit e; Settle (Fulfilled r)]) = q /\
  alerts (snd (run modal q [Submit e; Settle (Fulfilled r)])) = ["送信に失敗しました。"].
Proof.
  intros Hn Hst. apply ok_false_spec in Hst.
  cbv zeta. rewrite submit_then_settle.
  unfold step. rewrite Hn, !(settle_chain_not_ok _ _ Hst).
  repeat split.
Qed.

Lemma http_failure_alerts_and_preserves_witness :
  let p' := fst (step 7 (sample_pending 7) (Settle (Fulfilled response_500))) in
  snd (step 7 (sample_pending 7) (Settle (Fulfilled response_500)))
    = [EAlert "送信に失敗しました。"] /\
  form_fields p' = form_fields (sample_pending 7) /\
  modal_display p' = modal_display (sample_pending 7) /\
  form_action p' = form_action (sample_pending 7) /\
  fst (run 7 sample_page [Submit (Dom.mkEvent 1 false); Settle (Fulfilled response_500)])
    = sample_page /\
  alerts (snd (run 7 sample_page
                 [Submit (Dom.mkEvent 1 false); Settle (Fulfilled response_500)]))
    = ["送信に失敗しました。"].
Proof.
  apply (http_failure_alerts_and_preserves
           7 (sample_pending 7) sample_page 0 (Dom.mkEvent 1 false) response_500).
  - reflexivity.
  - simpl. lia.
Defined.

(** C3: when the fetch of a submission is pending and rejects, the chain
    shows one alert with the text "通信エラーが発生しました。" and touches
    neither the controls of the form nor the overlay's display.  So a submit
    event whose fetch rejects leaves the page as it found it. *)
Theorem network_failure_alerts_and_preserves
  (modal : Dom.node) (p q : page) (n : nat) (e : Dom.event) (reason : string) :
  in_flight p = S n ->
  let p' := fst (step modal p (Settle (Rejected reason))) in
  snd (step modal p (Settle (Rejected reason))) = [EAlert "通信エラーが発生しました。"] /\
  form_fields p' = form_fields p /\
  modal_display p' = modal_display p /\
  form_action p' = form_action p /\
  fst (run modal q [Submit e; Settle (Rejected reason)]) = q /\
  alerts (snd (run modal q [Submit e; Settle (Rejected reason)]))
    = ["通信エラーが発生しました。"].
Proof.
  intros Hn. cbv zeta. rewrite submit_then_settle.
  unfold step. rewrite Hn, !settle_chain_rejected.
  repeat split.
Qed.

Lemma network_failure_alerts_and_preserves_witness :
  let p' := fst (step 7 (sample_pending 7) (Settle (Rejected "offline"))) in
  snd (step 7 (sample_pending 7) (Settle (Rejected "offline")))
    = [EAlert "通信エラーが発生しました。"] /\
  form_fields p' = form_fields (sample_pending 7) /\
  modal_display p' = modal_display (sample_pending 7) /\
  form_action p' = form_action (sample_pending 7) /\
  fst (run 7 sample_page [Submit (Dom.mkEvent 1 false); Settle (Rejected "offline")])
    = sample_page /\
  alerts (snd (run 7 sample_page
                 [Submit (Dom.mkEvent 1 false); Settle (Rejected "offline")]))
    = ["通信エラーが発生しました。"].
Proof.
  apply (network_failure_alerts_and_preserves
           7 (sample_pending 7) sample_page 0 (Dom.mkEvent 1 false) "offline").
  reflexivity.
Defined.

(** ** The submit listener *)

Lemma fetches_app (t1 t2 : list effect) :
  fetches (t1 ++ t2) = fetches t1 ++ fetches t2.
Proof. apply flat_map_app. Qed.

Lemma outcomes_app (t1 t2 : list effect) :
  outcomes (t1 ++ t2) = outcomes t1 ++ outcomes t2.
Proof. apply flat_map_app. Qed.

(** The trace of a settlement, by outcome. *)
Lemma settle_chain_trace (o : settled Http.response) (p : page) :
  snd (outcome_of_run (settle_chain o p)) =
    match outcome_of o with
    | Success => [EFormReset; ESetDisplay "block"]
    | HttpFailure => [EAlert msg_http_failure]
    | NetworkFailure => [EAlert msg_network_failure]
    end.
Proof.
  destruct o as [r|reason]; simpl outcome_of.
  - destruct (Http.ok r) eqn:Hok.
    + rewrite (settle_chain_ok _ _ Hok). reflexivity.
    + rewrite (settle_chain_not_ok _ _ Hok). reflexivity.
  - reflexivity.
Qed.

Lemma settle_chain_in_flight (o : settled Http.response) (p : page) :
  in_flight (fst (outcome_of_run (settle_chain o p))) = in_flight p.
Proof.
  destruct o as [r|reason].
  - destruct (Http.ok r) eqn:Hok.
    + rewrite (settle_chain_ok _ _ Hok). reflexivity.
    + rewrite (settle_chain_not_ok _ _ Hok). reflexivity.
  - reflexivity.
Qed.

(** Requests leave only from the submit listener. *)
Lemma step_fetches (modal : Dom.node) (p : page) (i : input) :
  List.length (fetches (snd (step modal p i))) =
    match i with Submit _ => 1 | _ => 0 end.
Proof.
  destruct i as [e|o|e|e]; simpl.
  - reflexivity.
  - destruct (in_flight p); [reflexivity|].
    rewrite settle_chain_trace. destruct (outcome_of o); reflexivity.
  - reflexivity.
  - unfold window_click_listener. destruct (Nat.eqb _ _); reflexivity.
Qed.

Lemma run_fetches (modal : Dom.node) (ins : list input) :
  forall p, List.length (fetches (snd (run modal p ins))) = count_submits ins.
Proof.
  induction ins as [|i ins IH]; intros p.
  - reflexivity.
  - rewrite run_cons. cbn [snd].
    rewrite fetches_app, length_app, step_fetches, IH.
    unfold count_submits. destruct i; reflexivity.
Qed.

Example sample_submit :
  submit_listener {| Dom.target := 1; Dom.defaultPrevented := false |} sample_page =
    (Normal {| Dom.target := 1; Dom.defaultPrevented := true |},
     {| form_action := "https://example.com/f/contact";
        form_fields := sample_fields;
        modal_display := "none";
        in_flight := 1 |},
     [EPreventDefault; ENewFormData;
      EFetch {| Http.url := "https://example.com/f/contact";
                Http.method := "POST";
                Http.payload := Http.FormDataBody
                  [("name", Dom.VString "Yuki");
                   ("email", Dom.VString "yuki@example.com");
                   ("topic", Dom.VString "work");
                   ("attachment", Dom.VFile "cv.pdf" "%PDF")];
                Http.headers := [("Accept", "application/json")] |}]).
Proof. reflexivity. Qed.

(** C4: the submit listener calls [preventDefault] on the event before it
    does anything else, so the event comes back with its default action
    cancelled; this is so before the fetch settles and whichever way it
    settles. *)
Theorem submit_prevents_default_first
  (modal : Dom.node) (p : page) (e : Dom.event) (o : settled Http.response) :
  (exists e' p' rest,
      submit_listener e p = (Normal e', p', EPreventDefault :: rest) /\
      Dom.defaultPrevented e' = true /\
      Dom.target e' = Dom.target e /\
      ~ In EPreventDefault rest) /\
  hd_error (snd (step modal p (Submit e))) = Some EPreventDefault /\
  hd_error (snd (run modal p [Submit e; Settle o])) = Some EPreventDefault.
Proof.
  split; [|split].
  - rewrite submit_listener_eq. do 3 eexists. split; [reflexivity|].
    repeat split. simpl. intros [H|[H|H]]; congruence || contradiction.
  - reflexivity.
  - rewrite run_cons. reflexivity.
Qed.

(** C8: a submit event makes the listener issue exactly one request: a POST
    to the form's action that carries the current value of every control of
    the form (files too) as form data, which goes out as multipart, with the
    header [Accept: application/json].  A settlement issues no request, so
    over any run the requests are as many as the submit events; and the
    chain reads nothing of a response but its status. *)
Theorem submit_issues_one_post
  (modal : Dom.node) (p : page) (e : Dom.event) :
  let req :=
    {| Http.url := form_action p;
       Http.method := "POST";
       Http.payload :=
         Http.FormDataBody (map (fun f => (Dom.name f, Dom.current f)) (form_fields p));
       Http.headers := [("Accept", "application/json")] |} in
  fetches (snd (step modal p (Submit e))) = [req] /\
  in_flight (fst (step modal p (Submit e))) = S (in_flight p) /\
  Http.content_type (Http.payload req) = "multipart/form-data" /\
  (forall o q, fetches (snd (outcome_of_run (settle_chain o q))) = []) /\
  (forall q ins, List.length (fetches (snd (run modal q ins))) = count_submits ins) /\
  (forall s b1 b2 q,
      settle_chain (Fulfilled {| Http.status := s; Http.text := b1 |}) q =
      settle_chain (Fulfilled {| Http.status := s; Http.text := b2 |}) q).
Proof.
  cbv zeta. split; [reflexivity|]. split; [reflexivity|]. split; [reflexivity|].
  split; [|split].
  - intros o q. rewrite settle_chain_trace. destruct (outcome_of o); reflexivity.
  - intros q ins. apply run_fetches.
  - intros s b1 b2 q. unfold settle_chain, bind, then_, then_handler, Http.ok.
    cbn [Http.status]. reflexivity.
Qed.

(** ** Dismissing the overlay *)

Lemma window_click_on_modal (modal : Dom.node) (e : Dom.event) (p : page) :
  Dom.target e = modal ->
  window_click_listener modal e p =
    (Normal tt,
     {| form_action := form_action p;
        form_fields := form_fields p;
        modal_display := "none";
        in_flight := in_flight p |},
     [ESetDisplay "none"]).
Proof.
  intros H. unfold window_click_listener.
  apply Nat.eqb_eq in H. rewrite H. reflexivity.
Qed.

Lemma window_click_elsewhere (modal : Dom.node) (e : Dom.event) (p : page) :
  Dom.target e <> modal ->
  window_click_listener modal e p = (Normal tt, p, []).
Proof.
  intros H. unfold window_click_listener.
  apply Nat.eqb_neq in H. rewrite H. reflexivity.
Qed.

(** In a document whose elements are distinct, an element is none of the
    elements inside it. *)
Lemma root_not_descendant (t : Dom.tree) :
  NoDup (Dom.nodes t) -> ~ In (Dom.root t) (Dom.descendants t).
Proof.
  destruct t as [n cs]. simpl. intros H.
  apply NoDup_cons_iff in H. tauto.
Qed.

Example sample_backdrop_click :
  window_click_listener 7 {| Dom.target := 7; Dom.defaultPrevented := false |}
    (fst (step 7 (sample_pending 7) (Settle (Fulfilled response_200)))) =
    (Normal tt,
     {| form_action := "https://example.com/f/contact";
        form_fields := Dom.reset_fields sample_fields;
        modal_display := "none";
        in_flight := 0 |},
     [ESetDisplay "none"]).
Proof. reflexivity. Qed.

Example sample_inner_click :
  window_click_listener 7 {| Dom.target := 9; Dom.defaultPrevented := false |}
    (fst (step 7 (sample_pending 7) (Settle (Fulfilled response_200)))) =
    (Normal tt,
     fst (step 7 (sample_pending 7) (Settle (Fulfilled response_200))),
     []).
Proof. reflexivity. Qed.

(** C6: a click on the close button sets the overlay's display to "none",
    whatever it was; the listener tests nothing and finishes normally, and
    when the display is "none" already the page is left as it was. *)
Theorem close_click_hides_overlay (p : page) (e : Dom.event) :
  closeBtn_click_listener e p =
    (Normal tt,
     {| form_action := form_action p;
        form_fields := form_fields p;
        modal_display := "none";
        in_flight := in_flight p |},
     [ESetDisplay "none"]) /\
  overlay_of (modal_display (fst (outcome_of_run (closeBtn_click_listener e p)))) = Some Hidden /\
  (modal_display p = "none" -> fst (outcome_of_run (closeBtn_click_listener e p)) = p).
Proof.
  split; [reflexivity|]. split; [reflexivity|].
  intros H. destruct p as [a fs d n]. simpl in *. subst d. reflexivity.
Qed.

Lemma close_click_hides_overlay_witness :
  fst (outcome_of_run
         (closeBtn_click_listener
            {| Dom.target := 10; Dom.defaultPrevented := false |} sample_page))
    = sample_page.
Proof.
  apply (close_click_hides_overlay sample_page
           {| Dom.target := 10; Dom.defaultPrevented := false |}).
  reflexivity.
Defined.

(** C7: the window's click listener sets the overlay's display to "none"
    exactly when the click's target is the overlay element itself; for every
    other target it does nothing at all, and the elements inside the overlay
    are such targets. *)
Theorem window_click_hides_iff_target_is_modal
  (modal : Dom.node) (p : page) (e : Dom.event) :
  (In (ESetDisplay "none") (snd (outcome_of_run (window_click_listener modal e p)))
     <-> Dom.target e = modal) /\
  (Dom.target e = modal ->
     window_click_listener modal e p =
       (Normal tt,
        {| form_action := form_action p;
           form_fields := form_fields p;
           modal_display := "none";
           in_flight := in_flight p |},
        [ESetDisplay "none"])) /\
  (Dom.target e <> modal ->
     window_click_listener modal e p = (Normal tt, p, [])) /\
  (forall t : Dom.tree,
     NoDup (Dom.nodes t) -> Dom.root t = modal ->
     In (Dom.target e) (Dom.descendants t) ->
     window_click_listener modal e p = (Normal tt, p, [])).
Proof.
  split; [|split; [|split]].
  - destruct (Nat.eq_dec (Dom.target e) modal) as [E|E].
    + rewrite (window_click_on_modal _ _ _ E). simpl. tauto.
    + rewrite (window_click_elsewhere _ _ _ E). simpl. tauto.
  - apply window_click_on_modal.
  - apply window_click_elsewhere.
  - intros t Hnd Hroot Hin. apply window_click_elsewhere.
    intros E. apply (root_not_descendant t Hnd). congruence.
Qed.

Lemma window_click_hides_iff_target_is_modal_witness :
  window_click_listener 7 {| Dom.target := 9; Dom.defaultPrevented := false |}
    (fst (step 7 (sample_pending 7) (Settle (Fulfilled response_200)))) =
    (Normal tt, fst (step 7 (sample_pending 7) (Settle (Fulfilled response_200))), []).
Proof.
  apply (window_click_hides_iff_target_is_modal 7
           (fst (step 7 (sample_pending 7) (Settle (Fulfilled response_200))))
           {| Dom.target := 9; Dom.defaultPrevented := false |})
    with (t := sample_overlay).
  - repeat constructor; simpl; lia.
  - reflexivity.
  - simpl. lia.
Defined.

(** ** The overlay's state machine *)

(** What a step of the event loop does to the overlay's display. *)
Lemma step_display (modal : Dom.node) (p : page) (i : input) :
  modal_display (fst (step modal p i)) =
    match classify modal p i with
    | SuccessfulSubmission => "block"
    | CloseButtonActivation => "none"
    | BackdropClick => "none"
    | Other => modal_display p
    end.
Proof.
  destruct i as [e|o|e|e]; simpl.
  - reflexivity.
  - destruct (in_flight p) as [|n]; [reflexivity|].
    destruct o as [r|reason]; [|reflexivity].
    destruct (Http.ok r) eqn:Hok.
    + rewrite (settle_chain_ok _ _ Hok). reflexivity.
    + rewrite (settle_chain_not_ok _ _ Hok). reflexivity.
  - reflexivity.
  - unfold window_click_listener.
    destruct (Nat.eqb (Dom.target e) modal); reflexivity.
Qed.

Lemma step_display_written (modal : Dom.node) (p : page) (i : input) :
  display_written p -> display_written (fst (step modal p i)).
Proof.
  unfold display_written. rewrite step_display.
  destruct (classify modal p i); tauto.
Qed.

Lemma run_display_written (modal : Dom.node) (ins : list input) :
  forall p, display_written p -> display_written (fst (run modal p ins)).
Proof.
  induction ins as [|i ins IH]; intros p H.
  - exact H.
  - rewrite run_cons. cbn [fst]. apply IH, step_display_written, H.
Qed.

Lemma overlay_of_written (p : page) :
  display_written p ->
  exists v, overlay_of (modal_display p) = Some v.
Proof.
  intros [H|H]; rewrite H; eexists; reflexivity.
Qed.

Lemma classify_success (modal : Dom.node) (p : page) (i : input) :
  classify modal p i = SuccessfulSubmission ->
  exists r n, i = Settle (Fulfilled r) /\ Http.ok r = true /\ in_flight p = S n.
Proof.
  destruct i as [e|o|e|e]; simpl; try discriminate.
  - destruct (in_flight p) as [|n]; [discriminate|].
    destruct o as [r|reason]; [|discriminate].
    destruct (Http.ok r) eqn:Hok; [|discriminate].
    intros _. exists r, n. auto.
  - destruct (Nat.eqb _ _); discriminate.
Qed.

Lemma classify_dismiss (modal : Dom.node) (p : page) (i : input) :
  classify modal p i = CloseButtonActivation \/ classify modal p i = BackdropClick ->
  (exists e, i = CloseClick e) \/
  (exists e, i = WindowClick e /\ Dom.target e = modal).
Proof.
  destruct i as [e|o|e|e]; simpl.
  - intros [H|H]; discriminate.
  - destruct (in_flight p); [intros [H|H]; discriminate|].
    destruct o as [r|reason]; [|intros [H|H]; discriminate].
    destruct (Http.ok r); intros [H|H]; discriminate.
  - intros _. left. eauto.
  - destruct (Nat.eqb (Dom.target e) modal) eqn:E; [|intros [H|H]; discriminate].
    intros _. right. exists e. split; [reflexivity|]. apply Nat.eqb_eq, E.
Qed.

Example sample_session :
  map (fun ins => overlay_of (modal_display (fst (run 7 sample_page ins))))
    [ [];
      [Submit (Dom.mkEvent 1 false)];
      [Submit (Dom.mkEvent 1 false); Settle (Fulfilled response_500)];
      [Submit (Dom.mkEvent 1 false); Settle (Fulfilled response_200)];
      [Submit (Dom.mkEvent 1 false); Settle (Fulfilled response_200);
       WindowClick (Dom.mkEvent 9 false)];
      [Submit (Dom.mkEvent 1 false); Settle (Fulfilled response_200);
       WindowClick (Dom.mkEvent 7 false)];
      [Submit (Dom.mkEvent 1 false); Settle (Fulfilled response_200);
       CloseClick (Dom.mkEvent 10 false); CloseClick (Dom.mkEvent 10 false)] ]
  = [Some Hidden; Some Hidden; Some Hidden; Some Visible; Some Visible;
     Some Hidden; Some Hidden].
Proof. reflexivity. Qed.

(** C5: started hidden, the overlay is hidden or visible after every run of
    the event loop, and each further step moves it as the spec's machine
    says: a fetch that resolves with an ok response makes it visible, a
    click on the close button or on the overlay itself hides it, and every
    other input (a submit event, a failed or rejected fetch, a click
    elsewhere) leaves the display as it is.  So hidden becomes visible only
    by a successful submission and visible becomes hidden only by one of
    the two dismissals. *)
Theorem overlay_state_machine
  (modal : Dom.node) (action : string) (fields : list Dom.field)
  (ins : list input) (i : input) :
  let p0 := initial_page action fields in
  let p := fst (run modal p0 ins) in
  let p' := fst (step modal p i) in
  overlay_of (modal_display p0) = Some Hidden /\
  (exists v,
      overlay_of (modal_display p) = Some v /\
      overlay_of (modal_display p') =
        Some (spec_overlay_step v (classify modal p i))) /\
  (classify modal p i = Other -> modal_display p' = modal_display p) /\
  (overlay_of (modal_display p') = overlay_of (modal_display p) ->
   modal_display p' = modal_display p) /\
  (overlay_of (modal_display p) = Some Hidden ->
   overlay_of (modal_display p') = Some Visible ->
   exists r n, i = Settle (Fulfilled r) /\ Http.ok r = true /\ in_flight p = S n) /\
  (overlay_of (modal_display p) = Some Visible ->
   overlay_of (modal_display p') = Some Hidden ->
   (exists e, i = CloseClick e) \/
   (exists e, i = WindowClick e /\ Dom.target e = modal)).
Proof.
  cbv zeta.
  set (p := fst (run modal (initial_page action fields) ins)).
  assert (W : display_written p).
  { apply run_display_written. left. reflexivity. }
  destruct (overlay_of_written p W) as [v Hv].
  assert (Hstep : overlay_of (modal_display (fst (step modal p i))) =
                  Some (spec_overlay_step v (classify modal p i))).
  { rewrite step_display. destruct (classify modal p i); try reflexivity. exact Hv. }
  split; [reflexivity|]. split; [|split; [|split; [|split]]].
  - exists v. split; assumption.
  - intros H. rewrite step_display, H. reflexivity.
  - pose proof (step_display_written modal p i W) as W'.
    destruct W as [E|E], W' as [E'|E']; rewrite E, E'; try reflexivity;
      intros H; discriminate H.
  - intros Hh Hv'. rewrite Hstep in Hv'. rewrite Hv in Hh.
    injection Hh as ->. apply (classify_success modal).
    destruct (classify modal p i); simpl in Hv'; try discriminate. reflexivity.
  - intros Hh Hv'. rewrite Hstep in Hv'. rewrite Hv in Hh.
    injection Hh as ->. apply (classify_dismiss modal p).
    destruct (classify modal p i); simpl in Hv'; try discriminate; auto.
Qed.

Lemma overlay_state_machine_witness :
  exists r n,
    Settle (Fulfilled response_200) = Settle (Fulfilled r) /\
    Http.ok r = true /\
    in_flight (fst (run 7 (initial_page "https://example.com/f/contact" sample_fields)
                      [Submit (Dom.mkEvent 1 false)])) = S n.
Proof.
  apply (overlay_state_machine 7 "https://example.com/f/contact" sample_fields
           [Submit (Dom.mkEvent 1 false)] (Settle (Fulfilled response_200)));
    reflexivity.
Defined.

(** ** One outcome per submission attempt *)

Lemma step_outcomes (modal : Dom.node) (p : page) (i : input) :
  List.length (outcomes (snd (step modal p i))) + in_flight (fst (step modal p i)) =
    in_flight p + match i with Submit _ => 1 | _ => 0 end.
Proof.
  destruct i as [e|o|e|e]; simpl.
  - lia.
  - destruct (in_flight p) as [|n] eqn:Hn; [simpl; lia|].
    rewrite settle_chain_trace, settle_chain_in_flight.
    destruct (outcome_of o); simpl; lia.
  - lia.
  - unfold window_click_listener.
    destruct (Nat.eqb (Dom.target e) modal); simpl; lia.
Qed.

Lemma run_outcomes (modal : Dom.node) (ins : list input) :
  forall p,
    List.length (outcomes (snd (run modal p ins))) + in_flight (fst (run modal p ins)) =
      count_submits ins + in_flight p.
Proof.
  induction ins as [|i ins IH]; intros p.
  - reflexivity.
  - rewrite run_cons. cbn [fst snd].
    rewrite outcomes_app, length_app.
    pose proof (IH (fst (step modal p i))) as H1.
    pose proof (step_outcomes modal p i) as H2.
    assert (H3 : count_submits (i :: ins) =
                 match i with Submit _ => 1 | _ => 0 end + count_submits ins).
    { unfold count_submits. destruct i; reflexivity. }
    lia.
Qed.

Example sample_double_submit :
  outcomes (snd (run 7 sample_page
    [Submit (Dom.mkEvent 1 false); Submit (Dom.mkEvent 1 false);
     Settle (Rejected "offline"); Settle (Fulfilled response_200);
     Settle (Fulfilled response_500)]))
  = [NetworkFailure; Success].
Proof. reflexivity. Qed.

(** C9: a settlement runs exactly one of the three branches: the success
    branch for an ok response, the alert of the HTTP failure for any other
    response, the alert of the network failure for a rejection.  Over any
    run, the branches that ran and the fetches still pending add up to the
    submit events, so no attempt ever gets a second outcome. *)
Theorem one_outcome_per_attempt
  (modal : Dom.node) (p : page) (o : settled Http.response) (ins : list input) :
  outcomes (snd (outcome_of_run (settle_chain o p))) = [outcome_of o] /\
  snd (outcome_of_run (settle_chain o p)) =
    match outcome_of o with
    | Success => [EFormReset; ESetDisplay "block"]
    | HttpFailure => [EAlert "送信に失敗しました。"]
    | NetworkFailure => [EAlert "通信エラーが発生しました。"]
    end /\
  List.length (outcomes (snd (run modal p ins))) + in_flight (fst (run modal p ins)) =
    count_submits ins + in_flight p /\
  (forall action fields,
      List.length (outcomes (snd (run modal (initial_page action fields) ins)))
        <= count_submits ins).
Proof.
  split; [|split; [|split]].
  - rewrite settle_chain_trace. destruct (outcome_of o); reflexivity.
  - apply settle_chain_trace.
  - apply run_outcomes.
  - intros action fields.
    pose proof (run_outcomes modal ins (initial_page action fields)) as H.
    simpl in_flight at 2 in H. lia.
Qed.

(** ** Determinism *)

(** C10: the listeners are functions of their visible inputs.  Run from two
    pages with the same controls and the same overlay display, on events
    with the same target, and for the chain on two settlements of the same
    outcome, each listener ends with the same controls, the same display and
    the same alerts; whatever else differs (the other fields of the event,
    the body of the response, the reason of the rejection, the fetches
    pending) has no influence. *)
Theorem listeners_deterministic
  (modal : Dom.node) (p1 p2 : page) (e1 e2 : Dom.event)
  (o1 o2 : settled Http.response) :
  form_fields p1 = form_fields p2 ->
  modal_display p1 = modal_display p2 ->
  Dom.target e1 = Dom.target e2 ->
  same_outcome o1 o2 ->
  observe (submit_listener e1 p1) = observe (submit_listener e2 p2) /\
  observe (settle_chain o1 p1) = observe (settle_chain o2 p2) /\
  observe (closeBtn_click_listener e1 p1) = observe (closeBtn_click_listener e2 p2) /\
  observe (window_click_listener modal e1 p1) = observe (window_click_listener modal e2 p2).
Proof.
  intros Hf Hd Ht Ho.
  split; [|split; [|split]].
  - rewrite !submit_listener_eq. simpl. congruence.
  - destruct o1 as [r1|x1], o2 as [r2|x2]; simpl in Ho; try contradiction.
    + assert (Hok : Http.ok r1 = Http.ok r2) by (unfold Http.ok; rewrite Ho; reflexivity).
      destruct (Http.ok r2) eqn:E2.
      * rewrite (settle_chain_ok _ _ Hok), (settle_chain_ok _ _ E2).
        simpl. congruence.
      * rewrite (settle_chain_not_ok _ _ Hok), (settle_chain_not_ok _ _ E2).
        simpl. congruence.
    + rewrite !settle_chain_rejected. simpl. congruence.
  - simpl. congruence.
  - unfold window_click_listener. rewrite Ht.
    destruct (Nat.eqb (Dom.target e2) modal); simpl; congruence.
Qed.

Lemma listeners_deterministic_witness :
  observe (submit_listener (Dom.mkEvent 1 false) sample_page)
    = observe (submit_listener (Dom.mkEvent 1 true) (sample_pending 7)) /\
  observe (settle_chain (Fulfilled response_200) sample_page)
    = observe (settle_chain (Fulfilled {| Http.status := 200; Http.text := "ok" |})
                 (sample_pending 7)) /\
  observe (closeBtn_click_listener (Dom.mkEvent 1 false) sample_page)
    = observe (closeBtn_click_listener (Dom.mkEvent 1 true) (sample_pending 7)) /\
  observe (window_click_listener 7 (Dom.mkEvent 1 false) sample_page)
    = observe (window_click_listener 7 (Dom.mkEvent 1 true) (sample_pending 7)).
Proof.
  apply (listeners_deterministic 7 sample_page (sample_pending 7)
           (Dom.mkEvent 1 false) (Dom.mkEvent 1 true)
           (Fulfilled response_200)
           (Fulfilled {| Http.status := 200; Http.text := "ok" |}));
    reflexivity.
Defined.

(** ** Whole runs of the event loop *)

Lemma alerts_app (t1 t2 : list effect) :
  alerts (t1 ++ t2) = alerts t1 ++ alerts t2.
Proof. apply flat_map_app. Qed.

Lemma reset_fields_idempotent (fs : list Dom.field) :
  Dom.reset_fields (Dom.reset_fields fs) = Dom.reset_fields fs.
Proof.
  unfold Dom.reset_fields. rewrite map_map. apply map_ext. reflexivity.
Qed.

(** The page a settlement leaves, by outcome. *)
Lemma step_settle_page (modal : Dom.node) (p : page) (n : nat)
  (o : settled Http.response) :
  in_flight p = S n ->
  fst (step modal p (Settle o)) =
    match outcome_of o with
    | Success =>
        {| form_action := form_action p;
           form_fields := Dom.reset_fields (form_fields p);
           modal_display := "block";
           in_flight := n |}
    | _ => take_pending p n
    end.
Proof.
  intros Hn. unfold step. rewrite Hn.
  destruct o as [r|reason]; simpl outcome_of.
  - destruct (Http.ok r) eqn:Hok.
    + rewrite (settle_chain_ok _ _ Hok). reflexivity.
    + rewrite (settle_chain_not_ok _ _ Hok). reflexivity.
  - reflexivity.
Qed.

Lemma step_form_action (modal : Dom.node) (p : page) (i : input) :
  form_action (fst (step modal p i)) = form_action p.
Proof.
  destruct i as [e|o|e|e]; simpl.
  - reflexivity.
  - destruct (in_flight p) as [|n] eqn:Hn; [reflexivity|].
    change (form_action (fst (outcome_of_run (settle_chain o (take_pending p n))))
            = form_action p).
    destruct o as [r|reason]; [|reflexivity].
    destruct (Http.ok r) eqn:Hok.
    + rewrite (settle_chain_ok _ _ Hok). reflexivity.
    + rewrite (settle_chain_not_ok _ _ Hok). reflexivity.
  - reflexivity.
  - unfold window_click_listener. destruct (Nat.eqb _ _); reflexivity.
Qed.

Lemma step_fetches_eq (modal : Dom.node) (p : page) (i : input) :
  fetches (snd (step modal p i)) =
    match i with
    | Submit _ => [submit_request (form_action p) (Dom.entries (form_fields p))]
    | _ => []
    end.
Proof.
  destruct i as [e|o|e|e]; simpl.
  - reflexivity.
  - destruct (in_flight p); [reflexivity|].
    rewrite settle_chain_trace. destruct (outcome_of o); reflexivity.
  - reflexivity.
  - unfold window_click_listener. destruct (Nat.eqb _ _); reflexivity.
Qed.

(** X1: over any run of the event loop, [form.action] stays what it was,
    and every request that leaves is a POST to it, with the header
    [Accept: application/json] and a multipart body. *)
Theorem run_requests_go_to_form_action
  (modal : Dom.node) (p : page) (ins : list input) :
  form_action (fst (run modal p ins)) = form_action p /\
  Forall (fun r =>
            Http.url r = form_action p /\
            Http.method r = "POST" /\
            Http.headers r = [("Accept", "application/json")] /\
            Http.content_type (Http.payload r) = "multipart/form-data")
         (fetches (snd (run modal p ins))).
Proof.
  revert p. induction ins as [|i ins IH]; intros p.
  - split; [reflexivity|constructor].
  - rewrite run_cons. cbn [fst snd].
    destruct (IH (fst (step modal p i))) as [Ha Hr].
    rewrite step_form_action in Ha, Hr.
    split; [exact Ha|].
    rewrite fetches_app. apply Forall_app. split; [|exact Hr].
    rewrite step_fetches_eq. destruct i; constructor; auto.
Qed.

Lemma step_form_fields (modal : Dom.node) (p : page) (i : input) :
  (In Success (outcomes (snd (step modal p i))) /\
   form_fields (fst (step modal p i)) = Dom.reset_fields (form_fields p)) \/
  (~ In Success (outcomes (snd (step modal p i))) /\
   form_fields (fst (step modal p i)) = form_fields p).
Proof.
  destruct i as [e|o|e|e]; simpl.
  - right. split; [tauto|reflexivity].
  - destruct (in_flight p) as [|n]; [right; simpl; tauto|].
    destruct o as [r|reason].
    + destruct (Http.ok r) eqn:Hok.
      * rewrite (settle_chain_ok _ _ Hok). left. simpl. tauto.
      * rewrite (settle_chain_not_ok _ _ Hok). right. simpl.
        split; [intros [H|H]; [discriminate|contradiction]|reflexivity].
    + right. simpl. split; [intros [H|H]; [discriminate|contradiction]|reflexivity].
  - right. simpl. tauto.
  - unfold window_click_listener. destruct (Nat.eqb _ _); right; simpl; tauto.
Qed.

Lemma run_form_fields (modal : Dom.node) (ins : list input) :
  forall p,
    (In Success (outcomes (snd (run modal p ins))) /\
     form_fields (fst (run modal p ins)) = Dom.reset_fields (form_fields p)) \/
    (~ In Success (outcomes (snd (run modal p ins))) /\
     form_fields (fst (run modal p ins)) = form_fields p).
Proof.
  induction ins as [|i ins IH]; intros p.
  - right. simpl. tauto.
  - rewrite run_cons. cbn [fst snd]. rewrite outcomes_app.
    destruct (step_form_fields modal p i) as [[S1 F1]|[S1 F1]];
      destruct (IH (fst (step modal p i))) as [[S2 F2]|[S2 F2]];
      rewrite F1 in F2; rewrite ?reset_fields_idempotent in F2.
    + left. split; [apply in_or_app; auto|exact F2].
    + left. split; [apply in_or_app; auto|exact F2].
    + left. split; [apply in_or_app; auto|exact F2].
    + right. split; [|exact F2].
      intros H. apply in_app_or in H. tauto.
Qed.

(** X2: over any run of the event loop, the controls of the form are what
    they were unless the success branch ran, and then they are the reset
    ones: submissions, failed or rejected fetches and clicks, however
    interleaved, keep what the user typed. *)
Theorem run_keeps_form_unless_success
  (modal : Dom.node) (p : page) (ins : list input) :
  (~ In Success (outcomes (snd (run modal p ins))) ->
   form_fields (fst (run modal p ins)) = form_fields p) /\
  (In Success (outcomes (snd (run modal p ins))) ->
   form_fields (fst (run modal p ins)) = Dom.reset_fields (form_fields p)).
Proof.
  destruct (run_form_fields modal ins p) as [[S F]|[S F]]; split; intros H;
    try exact F; contradiction.
Qed.

Lemma run_keeps_form_unless_success_witness :
  form_fields
    (fst (run 7 sample_page
            [Submit (Dom.mkEvent 1 false); Submit (Dom.mkEvent 1 false);
             Settle (Rejected "offline"); CloseClick (Dom.mkEvent 10 false);
             Settle (Fulfilled response_500); WindowClick (Dom.mkEvent 7 false)]))
    = form_fields sample_page.
Proof.
  apply (run_keeps_form_unless_success 7 sample_page
           [Submit (Dom.mkEvent 1 false); Submit (Dom.mkEvent 1 false);
            Settle (Rejected "offline"); CloseClick (Dom.mkEvent 10 false);
            Settle (Fulfilled response_500); WindowClick (Dom.mkEvent 7 false)]).
  simpl. intros [H|[H|H]]; [discriminate|discriminate|contradiction].
Defined.

Lemma step_alerts (modal : Dom.node) (p : page) (i : input) :
  alerts (snd (step modal p i)) =
    flat_map (fun o => match o with
                       | Success => []
                       | HttpFailure => [msg_http_failure]
                       | NetworkFailure => [msg_network_failure]
                       end)
      (outcomes (snd (step modal p i))).
Proof.
  destruct i as [e|o|e|e]; simpl.
  - reflexivity.
  - destruct (in_flight p); [reflexivity|].
    rewrite settle_chain_trace. destruct (outcome_of o); reflexivity.
  - reflexivity.
  - unfold window_click_listener. destruct (Nat.eqb _ _); reflexivity.
Qed.

Lemma run_alerts (modal : Dom.node) (ins : list input) :
  forall p,
    alerts (snd (run modal p ins)) =
      flat_map (fun o => match o with
                         | Success => []
                         | HttpFailure => [msg_http_failure]
                         | NetworkFailure => [msg_network_failure]
                         end)
        (outcomes (snd (run modal p ins))).
Proof.
  induction ins as [|i ins IH]; intros p.
  - reflexivity.
  - rewrite run_cons. cbn [snd].
    rewrite alerts_app, outcomes_app, flat_map_app, step_alerts, IH.
    reflexivity.
Qed.

(** X3: over any run of the event loop, the script shows no other text
    than its two failure messages, one alert for each failure branch that
    ran and in the same order, and never more alerts than there were
    submissions. *)
Theorem run_alerts_are_the_failures
  (modal : Dom.node) (p : page) (ins : list input) :
  alerts (snd (run modal p ins)) =
    flat_map (fun o => match o with
                       | Success => []
                       | HttpFailure => ["送信に失敗しました。"]
                       | NetworkFailure => ["通信エラーが発生しました。"]
                       end)
      (outcomes (snd (run modal p ins))) /\
  Forall (fun m => m = "送信に失敗しました。" \/ m = "通信エラーが発生しました。")
    (alerts (snd (run modal p ins))) /\
  List.length (alerts (snd (run modal p ins))) <= count_submits ins + in_flight p.
Proof.
  pose proof (run_alerts modal ins p) as E.
  pose proof (run_outcomes modal ins p) as L.
  split; [exact E|]. rewrite E. clear E.
  assert (G : forall os : list outcome,
             Forall (fun m => m = msg_http_failure \/ m = msg_network_failure)
               (flat_map (fun o => match o with
                                   | Success => []
                                   | HttpFailure => [msg_http_failure]
                                   | NetworkFailure => [msg_network_failure]
                                   end) os) /\
             List.length
               (flat_map (fun o => match o with
                                   | Success => []
                                   | HttpFailure => [msg_http_failure]
                                   | NetworkFailure => [msg_network_failure]
                                   end) os) <= List.length os).
  { induction os as [|o os [IH1 IH2]]; simpl.
    - split; [constructor|lia].
    - destruct o; simpl; (split; [try constructor; auto|lia]). }
  destruct (G (outcomes (snd (run modal p ins)))) as [G1 G2].
  split; [exact G1|].
  change (List.length
            (flat_map (fun o => match o with
                                | Success => []
                                | HttpFailure => [msg_http_failure]
                                | NetworkFailure => [msg_network_failure]
                                end) (outcomes (snd (run modal p ins))))
          <= count_submits ins + in_flight p).
  lia.
Qed.

(** X4: nothing guards against submitting again while a fetch is pending:
    submit events in a row each issue a request, all with the same URL and
    the same payload, each leaves one more fetch pending, and the form and
    the overlay stay as they were. *)
Theorem consecutive_submits_repeat_the_request
  (modal : Dom.node) (p : page) (es : list Dom.event) :
  fetches (snd (run modal p (map Submit es))) =
    repeat (submit_request (form_action p) (Dom.entries (form_fields p)))
           (List.length es) /\
  in_flight (fst (run modal p (map Submit es))) = List.length es + in_flight p /\
  form_fields (fst (run modal p (map Submit es))) = form_fields p /\
  modal_display (fst (run modal p (map Submit es))) = modal_display p.
Proof.
  revert p. induction es as [|e es IH]; intros p.
  - repeat split.
  - cbn [map]. rewrite run_cons. cbn [fst snd].
    destruct (IH (fst (step modal p (Submit e)))) as (F & N & Ff & D).
    rewrite fetches_app, F, N, Ff, D. simpl.
    repeat split. lia.
Qed.

(** X5: when two fetches or more are pending, the page that two
    settlements leave does not depend on which of them comes first. *)
Theorem settlements_commute
  (modal : Dom.node) (p : page) (n : nat) (o1 o2 : settled Http.response) :
  in_flight p = S (S n) ->
  fst (run modal p [Settle o1; Settle o2]) = fst (run modal p [Settle o2; Settle o1]).
Proof.
  intros Hn. rewrite !run_cons. cbn [run fst].
  rewrite (step_settle_page modal p (S n) o1 Hn).
  rewrite (step_settle_page modal p (S n) o2 Hn).
  destruct (outcome_of o1) eqn:E1; destruct (outcome_of o2) eqn:E2;
    (erewrite !step_settle_page by reflexivity); rewrite ?E1, ?E2;
    cbn; rewrite ?reset_fields_idempotent; reflexivity.
Qed.

Lemma settlements_commute_witness :
  fst (run 7 (fst (run 7 sample_page [Submit (Dom.mkEvent 1 false);
                                      Submit (Dom.mkEvent 1 false)]))
         [Settle (Fulfilled response_200); Settle (Rejected "offline")]) =
  fst (run 7 (fst (run 7 sample_page [Submit (Dom.mkEvent 1 false);
                                      Submit (Dom.mkEvent 1 false)]))
         [Settle (Rejected "offline"); Settle (Fulfilled response_200)]).
Proof.
  apply (settlements_commute 7
           (fst (run 7 sample_page [Submit (Dom.mkEvent 1 false);
                                    Submit (Dom.mkEvent 1 false)]))
           0 (Fulfilled response_200) (Rejected "offline")).
  reflexivity.
Defined.

(** ** Loading the script *)

Lemma hides_spec (ls : Load.listing) (n : Dom.node) (s : string) :
  Load.hides ls n s = false <-> ~ In s (ls n).
Proof.
  unfold Load.hides. split.
  - intros E H. apply existsb_eqb_in in H. congruence.
  - apply existsb_eqb_not_in.
Qed.

(** What the script has registered, by how far it got. *)
Lemma load_script_registered (ls : Load.listing) (b : Load.bindings) :
  Load.registered (Load.load_script ls b) =
    match Load.form b with
    | Some f =>
        if Load.hides ls f "addEventListener" then []
        else
          Load.mkRegistration (Load.OnElement f) "submit" Load.SubmitListener ::
          match Load.closeBtn b with
          | Some c =>
              if Load.hides ls c "addEventListener" then []
              else
                [ Load.mkRegistration (Load.OnElement c) "click" Load.CloseListener;
                  Load.mkRegistration Load.OnWindow "click" Load.WindowClickListener ]
          | None => []
          end
    | None => []
    end.
Proof.
  unfold Load.load_script, Load.seq, Load.addEventListener. cbn [Load.registered].
  destruct (Load.form b) as [f|]; cbn; [|reflexivity].
  destruct (Load.hides ls f "addEventListener"); cbn; [reflexivity|].
  destruct (Load.closeBtn b) as [c|]; cbn; [|reflexivity].
  destruct (Load.hides ls c "addEventListener"); reflexivity.
Qed.

Lemma load_script_complete (ls : Load.listing) (b : Load.bindings) :
  Load.result (Load.load_script ls b) = Normal tt <->
  exists f c,
    Load.form b = Some f /\ Load.closeBtn b = Some c /\
    Load.hides ls f "addEventListener" = false /\
    Load.hides ls c "addEventListener" = false.
Proof.
  unfold Load.load_script, Load.seq, Load.addEventListener. cbn [Load.result].
  destruct (Load.form b) as [f|]; cbn.
  - destruct (Load.hides ls f "addEventListener") eqn:Hf; cbn.
    + split; [discriminate|]. intros (f' & c & E & _ & H & _).
      injection E as <-. congruence.
    + destruct (Load.closeBtn b) as [c|]; cbn.
      * destruct (Load.hides ls c "addEventListener") eqn:Hc; cbn.
        -- split; [discriminate|]. intros (f' & c' & _ & E & _ & H).
           injection E as <-. congruence.
        -- split; [|reflexivity]. intros _. exists f, c. auto.
      * split; [discriminate|]. intros (f' & c & _ & E & _). discriminate E.
  - split; [discriminate|]. intros (f & c & E & _). discriminate E.
Qed.

Lemma load_script_result (ls : Load.listing) (b : Load.bindings) :
  Load.result (Load.load_script ls b) = Normal tt \/
  Load.result (Load.load_script ls b) = Throw "TypeError".
Proof.
  unfold Load.load_script, Load.seq, Load.addEventListener. cbn [Load.result].
  destruct (Load.form b) as [f|]; cbn; [|auto].
  destruct (Load.hides ls f "addEventListener"); cbn; [auto|].
  destruct (Load.closeBtn b) as [c|]; cbn; [|auto].
  destruct (Load.hides ls c "addEventListener"); cbn; auto.
Qed.

Example sample_load :
  Load.load_script sample_listing sample_bindings =
    {| Load.binds := sample_bindings;
       Load.result := Normal tt;
       Load.registered :=
         [ Load.mkRegistration (Load.OnElement 1) "submit" Load.SubmitListener;
           Load.mkRegistration (Load.OnElement 10) "click" Load.CloseListener;
           Load.mkRegistration Load.OnWindow "click" Load.WindowClickListener ] |}.
Proof. reflexivity. Qed.

Example sample_load_no_close :
  Load.load_script sample_listing sample_bindings_no_close =
    {| Load.binds := sample_bindings_no_close;
       Load.result := Throw "TypeError";
       Load.registered :=
         [ Load.mkRegistration (Load.OnElement 1) "submit" Load.SubmitListener ] |}.
Proof. reflexivity. Qed.

Example sample_load_hidden_method :
  Load.load_script (fun n => match n with 1 => ["addEventListener"] | _ => [] end)
    sample_bindings =
    {| Load.binds := sample_bindings;
       Load.result := Throw "TypeError";
       Load.registered := [] |}.
Proof. reflexivity. Qed.

(** X6: with [form], [modal] and [closeBtn] as the three lookups found them,
    the script runs to its end exactly when [form] and [closeBtn] are
    elements and neither lists a control under the name addEventListener;
    what [modal] is plays no part.  The listeners are registered in the
    order of the source, so the script that stops at the close button has
    registered the submit listener alone, the one that stops at the form
    none, and the window's listener is there only when the script ran to
    its end. *)
Theorem load_script_completes_iff (ls : Load.listing) (b : Load.bindings) :
  (Load.result (Load.load_script ls b) = Normal tt <->
   exists f c,
     Load.form b = Some f /\ Load.closeBtn b = Some c /\
     ~ In "addEventListener" (ls f) /\ ~ In "addEventListener" (ls c)) /\
  (Load.result (Load.load_script ls b) = Normal tt \/
   Load.result (Load.load_script ls b) = Throw "TypeError") /\
  Load.registered (Load.load_script ls b) =
    match Load.form b with
    | Some f =>
        if Load.hides ls f "addEventListener" then []
        else
          Load.mkRegistration (Load.OnElement f) "submit" Load.SubmitListener ::
          match Load.closeBtn b with
          | Some c =>
              if Load.hides ls c "addEventListener" then []
              else
                [ Load.mkRegistration (Load.OnElement c) "click" Load.CloseListener;
                  Load.mkRegistration Load.OnWindow "click" Load.WindowClickListener ]
          | None => []
          end
    | None => []
    end /\
  (In (Load.mkRegistration Load.OnWindow "click" Load.WindowClickListener)
      (Load.registered (Load.load_script ls b)) <->
   Load.result (Load.load_script ls b) = Normal tt) /\
  (forall m,
     Load.result (Load.load_script ls
                    {| Load.form := Load.form b; Load.modal := m;
                       Load.closeBtn := Load.closeBtn b |})
       = Load.result (Load.load_script ls b) /\
     Load.registered (Load.load_script ls
                        {| Load.form := Load.form b; Load.modal := m;
                           Load.closeBtn := Load.closeBtn b |})
       = Load.registered (Load.load_script ls b)).
Proof.
  split; [|split; [|split; [|split]]].
  - rewrite load_script_complete. split.
    + intros (f & c & Hf & Hc & H1 & H2). exists f, c.
      rewrite <- !hides_spec. auto.
    + intros (f & c & Hf & Hc & H1 & H2). exists f, c.
      rewrite !hides_spec. auto.
  - apply load_script_result.
  - apply load_script_registered.
  - rewrite load_script_registered, load_script_complete.
    destruct (Load.form b) as [f|].
    + destruct (Load.hides ls f "addEventListener") eqn:Hf.
      * split; [intros []|]. intros (f' & c & E & _ & H & _).
        injection E as <-. congruence.
      * destruct (Load.closeBtn b) as [c|].
        -- destruct (Load.hides ls c "addEventListener") eqn:Hc.
           ++ split.
              ** intros [H|[]]. discriminate H.
              ** intros (f' & c' & _ & E & _ & H). injection E as <-. congruence.
           ++ split; [|intros _; right; right; left; reflexivity].
              intros _. exists f, c. auto.
        -- split.
           ++ intros [H|[]]. discriminate H.
           ++ intros (f' & c & _ & E & _). discriminate E.
    + split; [intros []|]. intros (f & c & E & _). discriminate E.
  - intros m. split; reflexivity.
Qed.

(** ** The click listeners in the loaded page *)

Lemma click_listeners_on_element (f c n : Dom.node) :
  listeners_on
    [ Load.mkRegistration (Load.OnElement f) "submit" Load.SubmitListener;
      Load.mkRegistration (Load.OnElement c) "click" Load.CloseListener;
      Load.mkRegistration Load.OnWindow "click" Load.WindowClickListener ]
    "click" (Load.OnElement n)
  = if Nat.eqb c n then [Load.CloseListener] else [].
Proof.
  unfold listeners_on. cbn.
  rewrite andb_false_r, andb_true_r. destruct (Nat.eqb c n); reflexivity.
Qed.

Lemma click_listeners_on_window (f c : Dom.node) :
  listeners_on
    [ Load.mkRegistration (Load.OnElement f) "submit" Load.SubmitListener;
      Load.mkRegistration (Load.OnElement c) "click" Load.CloseListener;
      Load.mkRegistration Load.OnWindow "click" Load.WindowClickListener ]
    "click" Load.OnWindow
  = [Load.WindowClickListener].
Proof. reflexivity. Qed.

(** The click listeners along a path: the close button's for each time the
    button is on it, then the window's. *)
Lemma click_listeners_along (f c : Dom.node) (path : list Dom.node) :
  flat_map
    (listeners_on
       [ Load.mkRegistration (Load.OnElement f) "submit" Load.SubmitListener;
         Load.mkRegistration (Load.OnElement c) "click" Load.CloseListener;
         Load.mkRegistration Load.OnWindow "click" Load.WindowClickListener ]
       "click")
    (map Load.OnElement path ++ [Load.OnWindow])
  = flat_map (fun n => if Nat.eqb c n then [Load.CloseListener] else []) path
      ++ [Load.WindowClickListener].
Proof.
  rewrite flat_map_app. cbn [flat_map app].
  rewrite click_listeners_on_window. f_equal.
  induction path as [|n path IH]; [reflexivity|].
  cbn [map flat_map]. rewrite IH, click_listeners_on_element. reflexivity.
Qed.

Lemma invoke_close_bound (b : Load.bindings) (m : Dom.node) (e : Dom.event)
  (st : handled) :
  Load.modal b = Some m ->
  invoke b e st Load.CloseListener =
    {| page_after := hidden (page_after st);
       performed := performed st ++ [ESetDisplay "none"];
       uncaught := uncaught st |}.
Proof.
  intros Hm. unfold invoke. cbn [listener_body].
  unfold closeBtn_click_listener_at. rewrite Hm. reflexivity.
Qed.

Lemma invoke_close_null (b : Load.bindings) (e : Dom.event) (st : handled) :
  Load.modal b = None ->
  invoke b e st Load.CloseListener =
    {| page_after := page_after st;
       performed := performed st;
       uncaught := uncaught st ++ ["TypeError"] |}.
Proof.
  intros Hm. unfold invoke. cbn [listener_body].
  unfold closeBtn_click_listener_at. rewrite Hm. cbn.
  rewrite app_nil_r. reflexivity.
Qed.

Lemma invoke_window_null (b : Load.bindings) (e : Dom.event) (st : handled) :
  Load.modal b = None ->
  invoke b e st Load.WindowClickListener = st.
Proof.
  intros Hm. unfold invoke. cbn [listener_body].
  unfold window_click_listener_at, target_is. rewrite Hm. cbn.
  rewrite app_nil_r. destruct st; reflexivity.
Qed.

(** With [modal] bound, each run of the close button's callback writes the
    display. *)
Lemma fold_close_listeners (b : Load.bindings) (m c : Dom.node) (e : Dom.event)
  (rest : list Load.listener) :
  Load.modal b = Some m ->
  forall (path : list Dom.node) (st : handled),
    fold_left (invoke b e)
      (flat_map (fun n => if Nat.eqb c n then [Load.CloseListener] else []) path ++ rest)
      st
    = fold_left (invoke b e) rest
        {| page_after :=
             if existsb (Nat.eqb c) path then hidden (page_after st) else page_after st;
           performed :=
             performed st
               ++ repeat (ESetDisplay "none") (List.length (filter (Nat.eqb c) path));
           uncaught := uncaught st |}.
Proof.
  intros Hm. induction path as [|n path IH]; intros st.
  - destruct st as [p t u]. simpl. rewrite app_nil_r. reflexivity.
  - simpl. destruct (Nat.eqb c n); simpl.
    + rewrite IH, (invoke_close_bound b m e st Hm).
      cbn [page_after performed uncaught].
      rewrite <- app_assoc.
      destruct (existsb (Nat.eqb c) path); reflexivity.
    + apply IH.
Qed.

(** With [modal] unbound, each run of the close button's callback throws
    before it writes. *)
Lemma fold_close_listeners_null (b : Load.bindings) (c : Dom.node) (e : Dom.event)
  (rest : list Load.listener) :
  Load.modal b = None ->
  forall (path : list Dom.node) (st : handled),
    fold_left (invoke b e)
      (flat_map (fun n => if Nat.eqb c n then [Load.CloseListener] else []) path ++ rest)
      st
    = fold_left (invoke b e) rest
        {| page_after := page_after st;
           performed := performed st;
           uncaught :=
             uncaught st ++ repeat "TypeError" (List.length (filter (Nat.eqb c) path)) |}.
Proof.
  intros Hm. induction path as [|n path IH]; intros st.
  - destruct st as [p t u]. simpl. rewrite app_nil_r. reflexivity.
  - simpl. destruct (Nat.eqb c n); simpl.
    + rewrite IH, (invoke_close_null b e st Hm).
      cbn [page_after performed uncaught].
      rewrite <- app_assoc. reflexivity.
    + apply IH.
Qed.

Lemma load_script_complete_registered (ls : Load.listing) (b : Load.bindings)
  (c : Dom.node) :
  Load.result (Load.load_script ls b) = Normal tt ->
  Load.closeBtn b = Some c ->
  exists f,
    Load.registered (Load.load_script ls b) =
      [ Load.mkRegistration (Load.OnElement f) "submit" Load.SubmitListener;
        Load.mkRegistration (Load.OnElement c) "click" Load.CloseListener;
        Load.mkRegistration Load.OnWindow "click" Load.WindowClickListener ].
Proof.
  intros H Hc. apply load_script_complete in H.
  destruct H as (f & c' & Hf & Hc' & H1 & H2).
  rewrite Hc in Hc'. injection Hc' as <-.
  exists f. rewrite load_script_registered, Hf, H1, Hc, H2. reflexivity.
Qed.

Lemma run_listeners_click_eq (ls : Load.listing) (b : Load.bindings)
  (tree : Dom.tree) (m c : Dom.node) (e : Dom.event) (path : list Dom.node)
  (p : page) :
  Load.result (Load.load_script ls b) = Normal tt ->
  Load.modal b = Some m ->
  Load.closeBtn b = Some c ->
  Doc.path_to tree (Dom.target e) = Some path ->
  run_listeners (Load.load_script ls b) tree "click" e p =
    {| page_after :=
         if existsb (Nat.eqb c) path || Nat.eqb (Dom.target e) m then hidden p else p;
       performed :=
         repeat (ESetDisplay "none") (List.length (filter (Nat.eqb c) path))
           ++ (if Nat.eqb (Dom.target e) m then [ESetDisplay "none"] else []);
       uncaught := [] |}.
Proof.
  intros Hr Hm Hc Hp.
  destruct (load_script_complete_registered ls b c Hr Hc) as [f Hreg].
  unfold run_listeners, propagation. rewrite Hreg, Hp, click_listeners_along.
  change (Load.binds (Load.load_script ls b)) with b.
  rewrite (fold_close_listeners b m c e _ Hm).
  cbn [fold_left page_after performed uncaught app]. unfold invoke.
  cbn [listener_body page_after performed uncaught].
  unfold window_click_listener_at, target_is. rewrite Hm.
  destruct (Nat.eqb (Dom.target e) m); cbn.
  - rewrite orb_true_r. destruct (existsb (Nat.eqb c) path); reflexivity.
  - rewrite orb_false_r, app_nil_r. reflexivity.
Qed.

Example sample_click_on_close_button :
  run_listeners (Load.load_script sample_listing sample_bindings) sample_tree "click"
    (Dom.mkEvent 10 false)
    (fst (step 7 (sample_pending 7) (Settle (Fulfilled response_200))))
  = {| page_after :=
         hidden (fst (step 7 (sample_pending 7) (Settle (Fulfilled response_200))));
       performed := [ESetDisplay "none"];
       uncaught := [] |}.
Proof. reflexivity. Qed.

Example sample_click_in_form :
  run_listeners (Load.load_script sample_listing sample_bindings) sample_tree "click"
    (Dom.mkEvent 2 false)
    (fst (step 7 (sample_pending 7) (Settle (Fulfilled response_200))))
  = {| page_after := fst (step 7 (sample_pending 7) (Settle (Fulfilled response_200)));
       performed := [];
       uncaught := [] |}.
Proof. reflexivity. Qed.

(** X7: when the script has run to its end and [modal] is bound, the
    script's listeners for one bubbling click hide the overlay when the
    click's target is the overlay itself, or when the close button is on
    the event's way up (the target is the button or an element inside it);
    for any other click, also one on the content inside the overlay, they
    do nothing.  They write nothing but the display, leave the form and
    the pending fetches as they were, and throw nothing.  What the browser
    does once the listeners are through (a submit button submits its form,
    which is a submit event of its own) is outside this. *)
Theorem click_hides_from_overlay_or_close_button
  (ls : Load.listing) (b : Load.bindings) (tree : Dom.tree) (m c : Dom.node)
  (e : Dom.event) (path : list Dom.node) (p : page) :
  Load.result (Load.load_script ls b) = Normal tt ->
  Load.modal b = Some m ->
  Load.closeBtn b = Some c ->
  Doc.path_to tree (Dom.target e) = Some path ->
  let r := run_listeners (Load.load_script ls b) tree "click" e p in
  (In c path \/ Dom.target e = m -> page_after r = hidden p /\ performed r <> []) /\
  (~ In c path -> Dom.target e <> m -> page_after r = p /\ performed r = []) /\
  Forall (fun x => x = ESetDisplay "none") (performed r) /\
  uncaught r = [] /\
  form_fields (page_after r) = form_fields p /\
  in_flight (page_after r) = in_flight p.
Proof.
  intros Hr Hm Hc Hp. cbv zeta.
  rewrite (run_listeners_click_eq ls b tree m c e path p Hr Hm Hc Hp).
  cbn [page_after performed uncaught].
  assert (Hin : existsb (Nat.eqb c) path = true <-> In c path).
  { rewrite existsb_exists. split.
    - intros [x [Hx E]]. apply Nat.eqb_eq in E. subst x. exact Hx.
    - intros H. exists c. split; [exact H|apply Nat.eqb_refl]. }
  assert (Hlen : In c path -> filter (Nat.eqb c) path <> []).
  { intros H N.
    pose proof (proj2 (filter_In (Nat.eqb c) c path) (conj H (Nat.eqb_refl c))) as I.
    rewrite N in I. exact I. }
  assert (Hnone : ~ In c path -> filter (Nat.eqb c) path = []).
  { intros H. destruct (filter (Nat.eqb c) path) as [|x l] eqn:E; [reflexivity|].
    exfalso.
    assert (I : In x (filter (Nat.eqb c) path)) by (rewrite E; left; reflexivity).
    apply filter_In in I. destruct I as [Ix Ex].
    apply Nat.eqb_eq in Ex. subst x. exact (H Ix). }
  split; [|split; [|split; [|split; [|split]]]].
  - intros H.
    assert (B : existsb (Nat.eqb c) path || Nat.eqb (Dom.target e) m = true).
    { apply orb_true_iff. destruct H as [H|H].
      - left. apply Hin, H.
      - right. apply Nat.eqb_eq, H. }
    rewrite B. split; [reflexivity|].
    destruct H as [H|H].
    + specialize (Hlen H). destruct (filter (Nat.eqb c) path); [congruence|].
      simpl. discriminate.
    + apply Nat.eqb_eq in H. rewrite H. intros N.
      apply app_eq_nil in N. destruct N as [_ N]. discriminate N.
  - intros H1 H2.
    assert (B1 : existsb (Nat.eqb c) path = false).
    { destruct (existsb (Nat.eqb c) path) eqn:E; [|reflexivity].
      exfalso. apply H1, Hin. reflexivity. }
    apply Nat.eqb_neq in H2. rewrite B1, H2, (Hnone H1). split; reflexivity.
  - apply Forall_app. split.
    + apply Forall_forall. intros x Hx. apply repeat_spec in Hx. exact Hx.
    + destruct (Nat.eqb (Dom.target e) m); repeat constructor.
  - reflexivity.
  - destruct (existsb (Nat.eqb c) path || Nat.eqb (Dom.target e) m); reflexivity.
  - destruct (existsb (Nat.eqb c) path || Nat.eqb (Dom.target e) m); reflexivity.
Qed.

Lemma click_hides_from_overlay_or_close_button_witness :
  page_after
    (run_listeners (Load.load_script sample_listing sample_bindings) sample_tree
       "click" (Dom.mkEvent 10 false)
       (fst (step 7 (sample_pending 7) (Settle (Fulfilled response_200)))))
    = hidden (fst (step 7 (sample_pending 7) (Settle (Fulfilled response_200)))) /\
  performed
    (run_listeners (Load.load_script sample_listing sample_bindings) sample_tree
       "click" (Dom.mkEvent 10 false)
       (fst (step 7 (sample_pending 7) (Settle (Fulfilled response_200)))))
    <> [].
Proof.
  apply (proj1 (click_hides_from_overlay_or_close_button
                  sample_listing sample_bindings sample_tree 7 10
                  (Dom.mkEvent 10 false) [10; 8; 7; 0]
                  (fst (step 7 (sample_pending 7) (Settle (Fulfilled response_200))))
                  eq_refl eq_refl eq_refl eq_refl)).
  left. simpl. lia.
Defined.

(** ** When an element is missing *)

Lemma flat_map_all_nil {A B} (f : A -> list B) (l : list A) :
  (forall x, f x = []) -> flat_map f l = [].
Proof.
  intros H. induction l as [|x l IH]; simpl; [reflexivity|].
  rewrite H, IH. reflexivity.
Qed.

Lemma listeners_on_click_submit_only (f : Dom.node) (t : Load.event_target) :
  listeners_on
    [Load.mkRegistration (Load.OnElement f) "submit" Load.SubmitListener] "click" t
  = [].
Proof.
  unfold listeners_on. cbn. rewrite andb_false_r. reflexivity.
Qed.

(** A script that stopped before its end has no click listener. *)
Lemma no_click_listener_unless_complete (ls : Load.listing) (b : Load.bindings)
  (t : Load.event_target) :
  Load.result (Load.load_script ls b) <> Normal tt ->
  listeners_on (Load.registered (Load.load_script ls b)) "click" t = [].
Proof.
  intros H. rewrite load_script_registered.
  assert (N : ~ exists f c,
                Load.form b = Some f /\ Load.closeBtn b = Some c /\
                Load.hides ls f "addEventListener" = false /\
                Load.hides ls c "addEventListener" = false).
  { intros C. apply H, load_script_complete, C. }
  destruct (Load.form b) as [f|]; [|reflexivity].
  destruct (Load.hides ls f "addEventListener") eqn:Hf; [reflexivity|].
  destruct (Load.closeBtn b) as [c|]; [|apply listeners_on_click_submit_only].
  destruct (Load.hides ls c "addEventListener") eqn:Hc;
    [apply listeners_on_click_submit_only|].
  exfalso. apply N. exists f, c. auto.
Qed.

Example sample_click_without_close_button :
  run_listeners (Load.load_script sample_listing sample_bindings_no_close)
    sample_tree "click" (Dom.mkEvent 7 false)
    (fst (step 7 (sample_pending 7) (Settle (Fulfilled response_200))))
  = {| page_after := fst (step 7 (sample_pending 7) (Settle (Fulfilled response_200)));
       performed := [];
       uncaught := [] |}.
Proof. reflexivity. Qed.

Example sample_click_without_modal :
  run_listeners (Load.load_script sample_listing sample_bindings_no_modal)
    sample_tree "click" (Dom.mkEvent 10 false) sample_page
  = {| page_after := sample_page; performed := []; uncaught := ["TypeError"] |}.
Proof. reflexivity. Qed.

(** X8: unless the script ran to its end with [modal] bound, its listeners
    change nothing for a click.  A script that stopped early has no click
    listener at all, and one that stopped at the form has no listener of
    any type.  With only [modal] unbound the listeners run, but the
    window's finds its test false and the close button's throws on
    [modal.style], once for each time the button is on the event's way:
    the page is as before, nothing is shown, and the exceptions go
    uncaught. *)
Theorem clicks_do_nothing_unless_all_elements
  (ls : Load.listing) (b : Load.bindings) (tree : Dom.tree) (e : Dom.event)
  (p : page) :
  (Load.result (Load.load_script ls b) <> Normal tt ->
   run_listeners (Load.load_script ls b) tree "click" e p =
     {| page_after := p; performed := []; uncaught := [] |}) /\
  (Load.form b = None ->
   forall type,
     run_listeners (Load.load_script ls b) tree type e p =
       {| page_after := p; performed := []; uncaught := [] |}) /\
  (Load.result (Load.load_script ls b) = Normal tt ->
   Load.modal b = None ->
   forall c path,
     Load.closeBtn b = Some c ->
     Doc.path_to tree (Dom.target e) = Some path ->
     run_listeners (Load.load_script ls b) tree "click" e p =
       {| page_after := p;
          performed := [];
          uncaught := repeat "TypeError" (List.length (filter (Nat.eqb c) path)) |}).
Proof.
  split; [|split].
  - intros H. unfold run_listeners.
    rewrite flat_map_all_nil; [reflexivity|].
    intros t. apply no_click_listener_unless_complete, H.
  - intros Hf type. unfold run_listeners.
    rewrite load_script_registered, Hf. rewrite flat_map_all_nil; reflexivity.
  - intros Hr Hm c path Hc Hp.
    destruct (load_script_complete_registered ls b c Hr Hc) as [f Hreg].
    unfold run_listeners, propagation. rewrite Hreg, Hp, click_listeners_along.
    change (Load.binds (Load.load_script ls b)) with b.
    rewrite (fold_close_listeners_null b c e _ Hm).
    cbn [fold_left page_after performed uncaught app].
    apply invoke_window_null, Hm.
Qed.

Lemma clicks_do_nothing_unless_all_elements_witness :
  run_listeners (Load.load_script sample_listing sample_bindings_no_modal)
    sample_tree "click" (Dom.mkEvent 10 false) sample_page
  = {| page_after := sample_page;
       performed := [];
       uncaught := repeat "TypeError" (List.length (filter (Nat.eqb 10) [10; 8; 7; 0])) |}.
Proof.
  apply (proj2 (proj2 (clicks_do_nothing_unless_all_elements
                         sample_listing sample_bindings_no_modal sample_tree
                         (Dom.mkEvent 10 false) sample_page))
           eq_refl eq_refl 10 [10; 8; 7; 0] eq_refl eq_refl).
Defined.

Lemma settle_chain_at_bound (m : Dom.node) (o : settled Http.response) (p : page) :
  settle_chain_at (Some m) o p = settle_chain o p.
Proof. reflexivity. Qed.

Lemma settle_chain_in_none_listed (modal : option Dom.node)
  (o : settled Http.response) (p : page) :
  settle_chain_in [] modal o p = settle_chain_at modal o p.
Proof. reflexivity. Qed.

Example sample_success_without_modal :
  settle_chain_in (sample_listing 1) (Load.modal sample_bindings_no_modal)
    (Fulfilled response_200) sample_page
  = (Normal (Fulfilled tt),
     {| form_action := "https://example.com/f/contact";
        form_fields := Dom.reset_fields sample_fields;
        modal_display := "none";
        in_flight := 0 |},
     [EFormReset; EAlert "通信エラーが発生しました。"]).
Proof. reflexivity. Qed.

Example sample_success_with_reset_hidden :
  settle_chain_in sample_listed_with_reset (Some 7) (Fulfilled response_200) sample_page
  = (Normal (Fulfilled tt), sample_page, [EAlert "通信エラーが発生しました。"]).
Proof. reflexivity. Qed.

(** X9: a fetch that resolves with a status in 200-299 can still end in
    the [.catch] callback, which shows the text of the network failure,
    "通信エラーが発生しました。", although the submission went through.
    With [modal] unbound and [form.reset] not hidden, the form is reset
    (every control then holds its default), [modal.style] throws, and the
    overlay's display is not written.  With a control listed as reset,
    [form.reset()] itself throws, whatever [modal] is: nothing is reset and
    nothing else is done. *)
Theorem success_without_modal_alerts_network_failure
  (listed : list string) (p : page) (r : Http.response) :
  (200 <= Http.status r <= 299)%Z ->
  (~ In "reset" listed ->
   settle_chain_in listed None (Fulfilled r) p =
     (Normal (Fulfilled tt),
      {| form_action := form_action p;
         form_fields := Dom.reset_fields (form_fields p);
         modal_display := modal_display p;
         in_flight := in_flight p |},
      [EFormReset; EAlert "通信エラーが発生しました。"]) /\
   map Dom.current (form_fields (snd (fst (settle_chain_in listed None (Fulfilled r) p))))
     = map Dom.defaultValue (form_fields p)) /\
  (In "reset" listed ->
   forall modal,
     settle_chain_in listed modal (Fulfilled r) p =
       (Normal (Fulfilled tt), p, [EAlert "通信エラーが発生しました。"])).
Proof.
  intros Hst. apply ok_spec in Hst. split.
  - intros Hl.
    assert (E : settle_chain_in listed None (Fulfilled r) p =
      (Normal (Fulfilled tt),
       {| form_action := form_action p;
          form_fields := Dom.reset_fields (form_fields p);
          modal_display := modal_display p;
          in_flight := in_flight p |},
       [EFormReset; EAlert "通信エラーが発生しました。"])).
    { unfold settle_chain_in, bind, then_, then_handler_in, form_reset_in.
      rewrite Hst, (existsb_eqb_not_in _ _ Hl). reflexivity. }
    rewrite E. split; [reflexivity|].
    cbn [fst snd form_fields]. unfold Dom.reset_fields. rewrite map_map. reflexivity.
  - intros Hl modal. apply settle_chain_in_hidden; assumption.
Qed.

Lemma success_without_modal_alerts_network_failure_witness :
  settle_chain_in sample_listed_with_reset (Some 7) (Fulfilled response_200) sample_page
  = (Normal (Fulfilled tt), sample_page, [EAlert "通信エラーが発生しました。"]).
Proof.
  apply (proj2 (success_without_modal_alerts_network_failure
                  sample_listed_with_reset sample_page response_200
                  ltac:(simpl; lia))).
  simpl. tauto.
Defined.

(** X10: whatever [modal] is bound to and however the fetch settles, the
    promise at the end of the chain is fulfilled, so no rejection is left
    unhandled; the chain shows one alert at most, sends nothing, and with
    [modal] bound it is the chain of the event loop. *)
Theorem chain_always_fulfilled
  (modal : option Dom.node) (o : settled Http.response) (p : page) :
  fst (fst (settle_chain_at modal o p)) = Normal (Fulfilled tt) /\
  List.length (alerts (snd (settle_chain_at modal o p))) <= 1 /\
  fetches (snd (settle_chain_at modal o p)) = [] /\
  in_flight (snd (fst (settle_chain_at modal o p))) = in_flight p /\
  (forall m, settle_chain_at (Some m) o p = settle_chain o p).
Proof.
  assert (H : fst (fst (settle_chain_at modal o p)) = Normal (Fulfilled tt) /\
              List.length (alerts (snd (settle_chain_at modal o p))) <= 1 /\
              fetches (snd (settle_chain_at modal o p)) = [] /\
              in_flight (snd (fst (settle_chain_at modal o p))) = in_flight p).
  { destruct o as [r|reason].
    - unfold settle_chain_at, bind, then_, then_handler_at.
      destruct (Http.ok r); destruct modal as [m|]; cbn; repeat split; lia.
    - cbn. repeat split; lia. }
  destruct H as (H1 & H2 & H3 & H4).
  repeat split; assumption || (intros m; apply settle_chain_at_bound).
Qed.
